(** * Heading detection and outline assembly of [parse_pdf_and_classify.py]

    A shallow embedding of the module's functions [is_heading],
    [extract_headings_from_pdf], [extract_title_from_pdf] and [process_pdf],
    with the properties of the heading filter and of the outline builder.

    Python values are modelled as follows.
    - A [str] is the list of its Unicode code points.
    - A [float] is a binary64 number (Rocq's primitive floats), so the score
      of the heading filter is computed with the same roundings as in Python.
    - [None] is [None]: an optional argument is an [option].
    - A call that may raise returns an [Except]; the functions that print or
      use the classifier also return the list of these events. *)

From Stdlib Require Import List NArith Bool Arith Lia String Ascii PrimFloat.
From Stdlib Require Import Sorted DecimalString.
Import ListNotations.

Set Warnings "-inexact-float".

(** ** Strings *)

Definition char := N.
Definition str := list char.

(** The code point of an ASCII character, and a [str] literal. *)
Definition ch (a : ascii) : char := N_of_ascii a.
Definition py (s : string) : str := map N_of_ascii (list_ascii_of_string s).

Definition bullet : char := 8226%N.        (* U+2022 *)
Definition rightwards_arrow : char := 8594%N.  (* U+2192 *)
Definition newline : char := 10%N.

Definition str_eqb (a b : str) : bool :=
  if list_eq_dec N.eq_dec a b then true else false.

Definition is_empty {A} (l : list A) : bool :=
  match l with [] => true | _ :: _ => false end.

(** [c in s] for a one-character [c]. *)
Definition contains_char (c : char) (s : str) : bool := existsb (N.eqb c) s.

(** [s.endswith(c)] for a one-character [c]. *)
Definition endswith (s : str) (c : char) : bool :=
  match rev s with x :: _ => N.eqb x c | [] => false end.

(** [p in s] for strings: [s] has [p] as a substring. *)
Fixpoint startswith (s p : str) : bool :=
  match p, s with
  | [], _ => true
  | x :: p', y :: s' => N.eqb x y && startswith s' p'
  | _ :: _, [] => false
  end.

Fixpoint contains (p s : str) : bool :=
  startswith s p || match s with [] => false | _ :: s' => contains p s' end.

(** [s.split(sep)] for a one-character separator: the fields between the
    separators, empty ones included; never the empty list. *)
Fixpoint split_on_from (sep : char) (s : str) (field : str) : list str :=
  match s with
  | [] => [field]
  | c :: s' =>
      if N.eqb c sep then field :: split_on_from sep s' []
      else split_on_from sep s' (field ++ [c])
  end.

Definition split_on (sep : char) (s : str) : list str := split_on_from sep s [].

(** [s.replace(a, b)] for one-character [a] and [b]. *)
Definition replace_char (a b : char) (s : str) : str :=
  map (fun c => if N.eqb c a then b else c) s.

(** ** The character tables of the interpreter

    [str.strip], [str.split], [str.islower], [str.isupper], [str.istitle],
    [str.lower], [str.title] and the regular expression classes [\d] and
    [\s] read the Unicode character database of the interpreter.  The
    database is a parameter of the development; what is known of it is its
    ASCII part and that no decimal digit is white space. *)

Definition ascii_isspace (c : char) : bool :=
  (N.leb 9 c && N.leb c 13) || (N.leb 28 c && N.leb c 32).
Definition ascii_isdecimal (c : char) : bool := N.leb 48 c && N.leb c 57.
Definition ascii_islower (c : char) : bool := N.leb 97 c && N.leb c 122.
Definition ascii_isupper (c : char) : bool := N.leb 65 c && N.leb c 90.
Definition ascii_tolower (c : char) : char :=
  if ascii_isupper c then (c + 32)%N else c.
Definition ascii_toupper (c : char) : char :=
  if ascii_islower c then (c - 32)%N else c.

Definition is_ascii (c : char) : Prop := (c < 128)%N.

Record UnicodeDB := {
  uspace : char -> bool;     (* white space: strip, split, \s *)
  udecimal : char -> bool;   (* decimal digit: \d *)
  ulower : char -> bool;     (* lowercase character *)
  uupper : char -> bool;     (* uppercase character *)
  utitle : char -> bool;     (* titlecase character *)
  str_lower : str -> str;    (* str.lower() *)
  str_title : str -> str;    (* str.title() *)
  uspace_ascii : forall c, is_ascii c -> uspace c = ascii_isspace c;
  udecimal_ascii : forall c, is_ascii c -> udecimal c = ascii_isdecimal c;
  ulower_ascii : forall c, is_ascii c -> ulower c = ascii_islower c;
  uupper_ascii : forall c, is_ascii c -> uupper c = ascii_isupper c;
  utitle_ascii : forall c, is_ascii c -> utitle c = false;
  str_lower_ascii :
    forall s, Forall is_ascii s -> str_lower s = map ascii_tolower s;
  udecimal_not_space : forall c, udecimal c = true -> uspace c = false
}.

(** ** Exceptions *)

Inductive exn :=
| ZeroDivisionError
| LibraryError (msg : str).   (* raised by fitz, joblib or the classifier *)

Definition exn_str (e : exn) : str :=
  match e with
  | ZeroDivisionError => py "float division by zero"
  | LibraryError msg => msg
  end.

Inductive Except (A : Type) :=
| Ok (a : A)
| Raise (e : exn).
Arguments Ok {A} a.
Arguments Raise {A} e.

Definition bindE {A B} (m : Except A) (k : A -> Except B) : Except B :=
  match m with Ok a => k a | Raise e => Raise e end.

Declare Scope except_scope.
Delimit Scope except_scope with except.
Notation "x <- m ;; k" := (bindE m (fun x => k))
  (at level 61, m at next level, right associativity) : except_scope.

(** A [for] loop whose body may raise, over a loop state [S]. *)
Fixpoint for_each {A S} (body : S -> A -> Except S) (l : list A) (s : S)
  : Except S :=
  match l with
  | [] => Ok s
  | a :: l' => bindE (body s a) (for_each body l')
  end.

(** ** Floats *)

(** The float of a small non-negative [int]. *)
Fixpoint float_of_nat (n : nat) : float :=
  match n with
  | O => 0%float
  | S k => (float_of_nat k + 1)%float
  end.

(** [a / b] on floats raises when [b] is zero. *)
Definition fdiv (a b : float) : Except float :=
  if PrimFloat.eqb b 0%float then Raise ZeroDivisionError
  else Ok (a / b)%float.

(** [max(l)]: the first of the largest elements; [None] stands for the
    case the source guards with [if font_sizes]. *)
Definition py_max (l : list float) : option float :=
  match l with
  | [] => None
  | x :: xs => Some (fold_left (fun m y => if PrimFloat.ltb m y then y else m) xs x)
  end.

(** [sum(l)], which starts from the [int] 0. *)
Definition py_sum (l : list float) : float :=
  fold_left PrimFloat.add l 0%float.

(** ** Regular expressions

    The fragment of [re] the module uses: literals, character sets,
    concatenation, the greedy [*] and [+], [^] and [$].  [run r st] lists
    the states a backtracking match of [r] started in [st] can end in, the
    preferred one first; a state is the number of characters consumed
    so far and the rest of the subject. *)

Inductive regex :=
| RChar (c : char)
| RSet (p : char -> bool)
| RCat (r1 r2 : regex)
| RStar (r : regex)
| RBegin
| REnd.

Definition RPlus (r : regex) : regex := RCat r (RStar r).

Definition mstate := (nat * str)%type.

(** The iterations of a greedy star: one more iteration first, then none.
    The bodies of this module's stars consume at least one character, and
    an iteration that consumes nothing is not repeated. *)
Fixpoint star_run (body : mstate -> list mstate) (fuel : nat) (st : mstate)
  : list mstate :=
  match fuel with
  | O => [st]
  | S fuel' =>
      flat_map (fun st' =>
                  if fst st <? fst st' then star_run body fuel' st' else [])
               (body st) ++ [st]
  end.

Fixpoint run (r : regex) (st : mstate) : list mstate :=
  match r with
  | RChar c =>
      match snd st with
      | x :: s' => if N.eqb x c then [(S (fst st), s')] else []
      | [] => []
      end
  | RSet p =>
      match snd st with
      | x :: s' => if p x then [(S (fst st), s')] else []
      | [] => []
      end
  | RCat r1 r2 => flat_map (run r2) (run r1 st)
  | RStar r' => star_run (run r') (List.length (snd st)) st
  | RBegin => if fst st =? 0 then [st] else []
  | REnd =>
      match snd st with
      | [] => [st]
      | [x] => if N.eqb x newline then [st] else []
      | _ => []
      end
  end.

(** [re.match(r, s)] as a truth value. *)
Definition re_match (r : regex) (s : str) : bool :=
  negb (is_empty (run r (0, s))).

(** [re.search(r, s)] as a truth value: a match at some offset. *)
Fixpoint search_from (r : regex) (pos : nat) (s : str) : bool :=
  negb (is_empty (run r (pos, s)))
  || match s with [] => false | _ :: s' => search_from r (S pos) s' end.

Definition re_search (r : regex) (s : str) : bool := search_from r 0 s.

(** [re.sub(r, '', s)] for a pattern that starts with [^]: such a pattern
    matches at offset 0 only, so at most one match is removed. *)
Definition re_sub_anchored (r : regex) (s : str) : str :=
  match run r (0, s) with
  | st :: _ => snd st
  | [] => s
  end.

(** ** The string methods that read the character tables *)

Section Strings.
Context (U : UnicodeDB).

(** [s.lstrip()], [s.rstrip()], [s.strip()] *)
Fixpoint lstrip (s : str) : str :=
  match s with
  | c :: s' => if uspace U c then lstrip s' else s
  | [] => []
  end.

Definition rstrip (s : str) : str := rev (lstrip (rev s)).

Definition strip (s : str) : str := rstrip (lstrip s).

(** [s.split()]: the maximal runs of characters that are not white space. *)
Fixpoint split_from (s : str) (word : str) : list str :=
  match s with
  | [] => if is_empty word then [] else [word]
  | c :: s' =>
      if uspace U c
      then (if is_empty word then split_from s' []
            else word :: split_from s' [])
      else split_from s' (word ++ [c])
  end.

Definition split (s : str) : list str := split_from s [].

(** [s.islower()]: no uppercase or titlecase character, and at least one
    lowercase one. *)
Fixpoint islower_from (s : str) (cased : bool) : bool :=
  match s with
  | [] => cased
  | c :: s' =>
      if uupper U c || utitle U c then false
      else islower_from s' (cased || ulower U c)
  end.

Definition islower (s : str) : bool :=
  match s with
  | [c] => ulower U c
  | _ => islower_from s false
  end.

(** [s.isupper()] *)
Fixpoint isupper_from (s : str) (cased : bool) : bool :=
  match s with
  | [] => cased
  | c :: s' =>
      if ulower U c || utitle U c then false
      else isupper_from s' (cased || uupper U c)
  end.

Definition isupper (s : str) : bool :=
  match s with
  | [c] => uupper U c
  | _ => isupper_from s false
  end.

(** [s.istitle()]: uppercase and titlecase characters only after uncased
    ones, lowercase characters only after cased ones, and at least one
    cased character. *)
Fixpoint istitle_from (s : str) (cased previous_is_cased : bool) : bool :=
  match s with
  | [] => cased
  | c :: s' =>
      if uupper U c || utitle U c then
        if previous_is_cased then false else istitle_from s' true true
      else if ulower U c then
        if previous_is_cased then istitle_from s' true true else false
      else istitle_from s' cased false
  end.

Definition istitle (s : str) : bool :=
  match s with
  | [c] => utitle U c || uupper U c
  | _ => istitle_from s false false
  end.

(** *** The patterns of the module *)

(** [\[\d+\]] *)
Definition re_reference : regex :=
  RCat (RChar (ch "[")) (RCat (RPlus (RSet (udecimal U))) (RChar (ch "]"))).

(** [^[•\-→]] *)
Definition re_bullet : regex :=
  RCat RBegin
    (RSet (fun c => N.eqb c bullet || N.eqb c (ch "-")
                    || N.eqb c rightwards_arrow)).

(** [[.;,!?]$] *)
Definition re_end_punctuation : regex :=
  RCat (RSet (fun c => N.eqb c (ch ".") || N.eqb c (ch ";")
                       || N.eqb c (ch ",") || N.eqb c (ch "!")
                       || N.eqb c (ch "?")))
       REnd.

(** [^\d+(\.\d+)*\s] *)
Definition re_section_number : regex :=
  RCat RBegin
    (RCat (RPlus (RSet (udecimal U)))
       (RCat (RStar (RCat (RChar (ch ".")) (RPlus (RSet (udecimal U)))))
          (RSet (uspace U)))).

(** [^[0-9\s\.\-]+] *)
Definition title_prefix_char (c : char) : bool :=
  (N.leb (ch "0") c && N.leb c (ch "9")) || uspace U c
  || N.eqb c (ch ".") || N.eqb c (ch "-").

Definition re_title_prefix : regex :=
  RCat RBegin (RPlus (RSet title_prefix_char)).

(** ** [is_heading] *)

Definition linking_verbs : list str :=
  [py "is"; py "are"; py "was"; py "has"; py "have"; py "were"; py "will"].

(** [font_size and font_size >= 12]: [None] and zero are false. *)
Definition present_and_geb (x : option float) (bound : float) : bool :=
  match x with
  | None => false
  | Some v => negb (PrimFloat.eqb v 0%float) && PrimFloat.leb bound v
  end.

(** [y_pos is not None and y_pos < 0.3] *)
Definition present_and_ltb (x : option float) (bound : float) : bool :=
  match x with
  | None => false
  | Some v => PrimFloat.ltb v bound
  end.

(** [w[0].isupper()]; a word of [split] is never empty. *)
Definition starts_upper (w : str) : bool :=
  match w with c :: _ => uupper U c | [] => false end.

Definition count_if {A} (p : A -> bool) (l : list A) : nat :=
  List.length (filter p l).

Local Open Scope except_scope.

Definition is_heading (line : str) (font_size : option float)
    (is_bold : bool) (y_pos x_pos width page_width : option float)
  : Except bool :=
  let line := strip line in
  if is_empty line then Ok false else
  (* Reject if clearly body text *)
  if 15 <? List.length (split line) then Ok false else
  if contains_char (ch ".") line && (8 <? List.length (split line))
  then Ok false else
  if islower line then Ok false else
  if existsb (fun verb => existsb (str_eqb verb) (split (str_lower U line)))
       linking_verbs
  then Ok false else
  if re_search re_reference line then Ok false else
  if re_match re_bullet line then Ok false else
  if re_search re_end_punctuation line && negb (endswith line (ch ":"))
  then Ok false else
  (* Accept if highly probable heading patterns *)
  if re_match re_section_number line then Ok true else
  if endswith line (ch ":") then Ok true else
  if istitle line then Ok true else
  if isupper line && (2 <? List.length line) then Ok true else
  (* Style-based boosts *)
  let score := 0%float in
  let score :=
    if present_and_geb font_size 12 then (score + 0.4)%float else score in
  let score := if is_bold then (score + 0.3)%float else score in
  let score :=
    if List.length (split line) <? 10 then (score + 0.2)%float else score in
  let score :=
    if present_and_ltb y_pos 0.3 then (score + 0.1)%float else score in
  let score :=
    if isupper line && (2 <? List.length line) then (score + 0.2)%float
    else score in
  (* Center alignment boost *)
  score <-
    match x_pos, width, page_width with
    | Some x_pos, Some width, Some page_width =>
        center <- fdiv (x_pos + width / 2)%float page_width ;;
        Ok (if PrimFloat.ltb 0.45 center && PrimFloat.ltb center 0.55
            then (score + 0.1)%float else score)
    | _, _, _ => Ok score
    end ;;
  (* Capitalization ratio *)
  let words := split line in
  let score :=
    if is_empty words then score
    else
      let cap_ratio :=
        (float_of_nat (count_if starts_upper words)
         / float_of_nat (List.length words))%float in
      if PrimFloat.ltb 0.7 cap_ratio then (score + 0.1)%float else score in
  Ok (PrimFloat.leb 0.5 score).

(** [is_heading] without the scoring term for uppercase text: the
    variant the specification proposes for a port. *)
Definition is_heading_without_uppercase_boost (line : str)
    (font_size : option float) (is_bold : bool)
    (y_pos x_pos width page_width : option float)
  : Except bool :=
  let line := strip line in
  if is_empty line then Ok false else
  if 15 <? List.length (split line) then Ok false else
  if contains_char (ch ".") line && (8 <? List.length (split line))
  then Ok false else
  if islower line then Ok false else
  if existsb (fun verb => existsb (str_eqb verb) (split (str_lower U line)))
       linking_verbs
  then Ok false else
  if re_search re_reference line then Ok false else
  if re_match re_bullet line then Ok false else
  if re_search re_end_punctuation line && negb (endswith line (ch ":"))
  then Ok false else
  if re_match re_section_number line then Ok true else
  if endswith line (ch ":") then Ok true else
  if istitle line then Ok true else
  if isupper line && (2 <? List.length line) then Ok true else
  let score := 0%float in
  let score :=
    if present_and_geb font_size 12 then (score + 0.4)%float else score in
  let score := if is_bold then (score + 0.3)%float else score in
  let score :=
    if List.length (split line) <? 10 then (score + 0.2)%float else score in
  let score :=
    if present_and_ltb y_pos 0.3 then (score + 0.1)%float else score in
  score <-
    match x_pos, width, page_width with
    | Some x_pos, Some width, Some page_width =>
        center <- fdiv (x_pos + width / 2)%float page_width ;;
        Ok (if PrimFloat.ltb 0.45 center && PrimFloat.ltb center 0.55
            then (score + 0.1)%float else score)
    | _, _, _ => Ok score
    end ;;
  let words := split line in
  let score :=
    if is_empty words then score
    else
      let cap_ratio :=
        (float_of_nat (count_if starts_upper words)
         / float_of_nat (List.length words))%float in
      if PrimFloat.ltb 0.7 cap_ratio then (score + 0.1)%float else score in
  Ok (PrimFloat.leb 0.5 score).

(** The rejection rules and the pattern rules of [is_heading], on the
    stripped text. *)
Definition rejected (line : str) : bool :=
  is_empty line
  || (15 <? List.length (split line))
  || (contains_char (ch ".") line && (8 <? List.length (split line)))
  || islower line
  || existsb (fun verb => existsb (str_eqb verb) (split (str_lower U line)))
       linking_verbs
  || re_search re_reference line
  || re_match re_bullet line
  || (re_search re_end_punctuation line && negb (endswith line (ch ":"))).

End Strings.

(** ** The ASCII instance of the character tables

    Exact on ASCII text; no character beyond ASCII is white space, a digit
    or cased.  The concrete runs below are on ASCII text. *)

Fixpoint ascii_title_from (s : str) (previous_is_cased : bool) : str :=
  match s with
  | [] => []
  | c :: s' =>
      (if previous_is_cased then ascii_tolower c else ascii_toupper c)
      :: ascii_title_from s' (ascii_islower c || ascii_isupper c)
  end.

Definition below128 (f : char -> bool) (c : char) : bool :=
  N.ltb c 128 && f c.

Definition ascii_db : UnicodeDB.
Proof.
  assert (agree : forall f c, is_ascii c -> below128 f c = f c).
  { unfold is_ascii, below128. intros f c H.
    apply N.ltb_lt in H. now rewrite H. }
  refine {|
    uspace := below128 ascii_isspace;
    udecimal := below128 ascii_isdecimal;
    ulower := below128 ascii_islower;
    uupper := below128 ascii_isupper;
    utitle := fun _ => false;
    str_lower :=
      map (fun c => if below128 ascii_isupper c then (c + 32)%N else c);
    str_title := fun s => ascii_title_from s false
  |}.
  - intros; now apply agree.
  - intros; now apply agree.
  - intros; now apply agree.
  - intros; now apply agree.
  - reflexivity.
  - intros s H. apply map_ext_in. intros c Hc.
    rewrite Forall_forall in H. unfold ascii_tolower.
    now rewrite agree by auto.
  - intros c. unfold below128, ascii_isdecimal, ascii_isspace.
    destruct (N.ltb c 128); simpl; [|discriminate].
    intros H. apply andb_prop in H as [H1 H2].
    apply N.leb_le in H1. apply N.leb_le in H2.
    apply orb_false_iff. split; apply andb_false_iff.
    + right. apply N.leb_gt. lia.
    + right. apply N.leb_gt. lia.
Defined.

(** ** The layout source, the classifier and the file system

    What [fitz], [joblib] and [pathlib] give the module.  A span is the
    dictionary of one font run; [span.get('font', '')] and
    [span.get('width', 0)] read keys that may be absent.  A block without
    the key ['lines'] has [block_lines = None].

    The layout of a document that opens is taken as read: the iteration
    over its pages and [page.get_text('dict')] are data of the document,
    not calls that may raise.  The plain text of a page, which
    [extract_title_from_pdf] reads inside its [try], may fail to be
    read.  What is proved below of the heading extraction is therefore
    about documents whose layout is read. *)

Record Span := {
  span_text : str;
  span_size : float;
  span_font : option str;
  span_origin : float * float;
  span_width : option float
}.

Record Line := { line_spans : list Span }.

Record Block := { block_lines : option (list Line) }.

Record Page := {
  rect_width : float;
  rect_height : float;
  page_blocks : list Block;      (* page.get_text('dict')['blocks'] *)
  page_text : Except str         (* page.get_text() *)
}.

Record Document := {
  doc_pages : list Page;
  doc_close : Except unit        (* doc.close() *)
}.

(** A fitted classifier: [model.predict(texts)]. *)
Record Model := { predict : list str -> Except (list str) }.

Record World := {
  fitz_open : str -> Except Document;    (* fitz.open(pdf_path) *)
  joblib_load : str -> Except Model;     (* joblib.load(model_path) *)
  path_stem : str -> str                 (* Path(pdf_path).stem *)
}.

(** ** Events: what a run prints and what it asks of the classifier *)

Inductive event :=
| EvPrint (msg : str)
| EvLoad (model_path : str)
| EvPredict (texts : list str).

Definition IO (A : Type) : Type := (list event * Except A)%type.

Definition retIO {A} (a : A) : IO A := ([], Ok a).

Definition bindIO {A B} (m : IO A) (k : A -> IO B) : IO B :=
  match m with
  | (log, Ok a) => let (log', r) := k a in (log ++ log', r)
  | (log, Raise e) => (log, Raise e)
  end.

(** An external call: the event, then its result. *)
Definition call {A} (ev : event) (result : Except A) : IO A := ([ev], result).

Definition print (msg : str) : IO unit := call (EvPrint msg) (Ok tt).

Definition lift {A} (result : Except A) : IO A := ([], result).

Declare Scope io_scope.
Delimit Scope io_scope with io.
Notation "x <- m ;; k" := (bindIO m (fun x => k))
  (at level 61, m at next level, right associativity) : io_scope.

Definition trace {A} (m : IO A) : list event := fst m.
Definition result {A} (m : IO A) : Except A := snd m.

(** ** The outline *)

Record Heading := { h_text : str; h_page : nat }.

Record OutlineEntry := { level : str; text : str; page : nat }.

Record DocumentOutline := { title : str; outline : list OutlineEntry }.

(** [enumerate(l, start)] *)
Definition enumerate {A} (start : nat) (l : list A) : list (nat * A) :=
  combine (seq start (List.length l)) l.

Section Pipeline.
Context (U : UnicodeDB) (W : World).

(** ** [extract_headings_from_pdf] *)

(** The body of the innermost loop, for one line of a page. *)
Definition visit_line (page_num : nat) (page : Page) (page_width : float)
    (headings : list Heading) (line : Line) : Except (list Heading) :=
  let spans := line_spans line in
  let line_text := strip U (List.concat (map span_text spans)) in
  if is_empty line_text then Ok headings else
  (* Extract font size, bold, position, width *)
  let font_sizes := map span_size spans in
  let font_size := py_max font_sizes in
  let is_bold :=
    existsb (fun span =>
               contains (py "Bold")
                 (match span_font span with Some f => f | None => [] end))
            spans in
  (* Use the first span for position *)
  let x_pos :=
    match spans with
    | first :: _ => Some (fst (span_origin first))
    | [] => None
    end in
  (y_pos <-
    match spans with
    | first :: _ =>
        y <- fdiv (snd (span_origin first)) (rect_height page) ;; Ok (Some y)
    | [] => Ok None
    end ;;
  let width :=
    if is_empty spans then None
    else Some (py_sum (map (fun span =>
                              match span_width span with
                              | Some w => w
                              | None => 0%float
                              end) spans)) in
  accepted <-
    is_heading U line_text font_size is_bold y_pos x_pos width
      (Some page_width) ;;
  Ok (if accepted
      then headings ++ [{| h_text := line_text; h_page := page_num |}]
      else headings))%except.

Definition visit_block (page_num : nat) (page : Page) (page_width : float)
    (headings : list Heading) (block : Block) : Except (list Heading) :=
  match block_lines block with
  | None => Ok headings
  | Some lines =>
      for_each (visit_line page_num page page_width) lines headings
  end.

Definition visit_page (headings : list Heading) (numbered : nat * Page)
  : Except (list Heading) :=
  let (page_num, page) := numbered in
  let page_width := rect_width page in
  let blocks := page_blocks page in
  for_each (visit_block page_num page page_width) blocks headings.

Definition extract_headings_from_pdf (pdf_path : str)
  : Except (list Heading) :=
  (doc <- fitz_open W pdf_path ;;
   for_each visit_page (enumerate 1 (doc_pages doc)) [])%except.

(** ** [extract_title_from_pdf] *)

(** The loop over the first lines of the page: [Some title] when the
    loop returns, [None] when it runs to its end. *)
Fixpoint scan_title_lines (lines : list str) : option str :=
  match lines with
  | [] => None
  | line :: rest =>
      let line := strip U line in
      if negb (is_empty line) && (3 <? List.length line)
         && (List.length line <? 200)
      then
        (* Remove common prefixes and clean up *)
        let title := re_sub_anchored (re_title_prefix U) line in
        let title := strip U title in
        if negb (is_empty title) then Some title else scan_title_lines rest
      else scan_title_lines rest
  end.

(** The body of the [try]: [Ok (Some title)] when it returns a title,
    [Ok None] when it falls through to the fallback. *)
Definition title_from_first_page (pdf_path : str) : Except (option str) :=
  (doc <- fitz_open W pdf_path ;;
   found <-
     match doc_pages doc with
     | first_page :: _ =>
         text <- page_text first_page ;;
         Ok (if is_empty text then None
             else scan_title_lines (firstn 5 (split_on newline text)))
     | [] => Ok None
     end ;;
   match found with
   | Some title => Ok (Some title)
   | None => _ <- doc_close doc ;; Ok None
   end)%except.

(** The fallback: the file name without its extension. *)
Definition filename_title (pdf_path : str) : str :=
  str_title U (replace_char (ch "_") (ch " ") (path_stem W pdf_path)).

Definition extract_title_from_pdf (pdf_path : str) : IO str :=
  match title_from_first_page pdf_path with
  | Ok (Some title) => retIO title
  | Ok None => retIO (filename_title pdf_path)
  | Raise e =>
      (_ <- print (py "Error extracting title from " ++ pdf_path
                   ++ py ": " ++ exn_str e) ;;
       retIO (filename_title pdf_path))%io
  end.

(** ** [process_pdf] *)

Definition make_entry (pair : Heading * str) : OutlineEntry :=
  let (h, level) := pair in
  {| level := level; text := h_text h; page := h_page h |}.

Definition process_pdf (pdf_path model_path : str) : IO DocumentOutline :=
  (* Extract title *)
  (title <- extract_title_from_pdf pdf_path ;;
   (* Extract headings *)
   headings <- lift (extract_headings_from_pdf pdf_path) ;;
   if is_empty headings then
     _ <- print (py "No headings detected in " ++ pdf_path ++ py ".") ;;
     retIO {| title := title; outline := [] |}
   else
     (* Load the trained model *)
     model <- call (EvLoad model_path) (joblib_load W model_path) ;;
     (* Classify headings *)
     let texts := map h_text headings in
     levels <- call (EvPredict texts) (predict model texts) ;;
     (* Prepare output in required format *)
     let outline := map make_entry (combine headings levels) in
     retIO {| title := title; outline := outline |})%io.

End Pipeline.

(** ** The properties, in the words of the specification *)

(** What a match of a pattern is: [Matches r a b] when [r] can consume the
    subject from state [a] to state [b]. *)
Inductive Matches : regex -> mstate -> mstate -> Prop :=
| MChar c n s : Matches (RChar c) (n, c :: s) (S n, s)
| MSet (p : char -> bool) c n s :
    p c = true -> Matches (RSet p) (n, c :: s) (S n, s)
| MCat r1 r2 a b c :
    Matches r1 a b -> Matches r2 b c -> Matches (RCat r1 r2) a c
| MStarNil r a : Matches (RStar r) a a
| MStarCons r a b c :
    Matches r a b -> fst a < fst b -> Matches (RStar r) b c ->
    Matches (RStar r) a c
| MBegin s : Matches RBegin (0, s) (0, s)
| MEnd n : Matches REnd (n, []) (n, [])
| MEndNewline n : Matches REnd (n, [newline]) (n, [newline]).

(** Two patterns that differ in their sets only, the sets being the same
    on ASCII characters. *)
Inductive same_on_ascii : regex -> regex -> Prop :=
| SameChar c : same_on_ascii (RChar c) (RChar c)
| SameSet (p q : char -> bool) :
    (forall c, is_ascii c -> p c = q c) -> same_on_ascii (RSet p) (RSet q)
| SameCat r1 r2 q1 q2 :
    same_on_ascii r1 q1 -> same_on_ascii r2 q2 ->
    same_on_ascii (RCat r1 r2) (RCat q1 q2)
| SameStar r q : same_on_ascii r q -> same_on_ascii (RStar r) (RStar q)
| SameBegin : same_on_ascii RBegin RBegin
| SameEnd : same_on_ascii REnd REnd.

(** [small] is [big] with some elements left out, the order kept. *)
Inductive Subseq {A : Type} : list A -> list A -> Prop :=
| SubseqNil : Subseq [] []
| SubseqSkip x small big : Subseq small big -> Subseq small (x :: big)
| SubseqTake x small big : Subseq small big -> Subseq (x :: small) (x :: big).

Fixpoint drop_while {A} (p : A -> bool) (l : list A) : list A :=
  match l with
  | x :: l' => if p x then drop_while p l' else l
  | [] => []
  end.

(** Groups joined by periods: ["1"], ["1.2"], ["2.3.4"]. *)
Fixpoint join_groups (first : str) (others : list str) : str :=
  match others with
  | [] => first
  | g :: gs => first ++ ch "." :: join_groups g gs
  end.

Section Words.
Context (U : UnicodeDB).

Definition digit_group (g : str) : Prop :=
  g <> [] /\ Forall (fun c => udecimal U c = true) g.

(** A leading numeric section prefix: one or more groups of digits
    separated by periods, followed by white space. *)
Definition starts_with_section_number (s : str) : Prop :=
  exists first others space rest,
    digit_group first /\ Forall digit_group others
    /\ uspace U space = true
    /\ s = join_groups first others ++ space :: rest.

(** A bracketed integer such as ["[12]"] somewhere in the text. *)
Definition contains_reference (s : str) : Prop :=
  exists before digits after,
    digit_group digits
    /\ s = before ++ ch "[" :: digits ++ ch "]" :: after.

(** Entirely lowercase: every cased character is a lowercase one, and
    there is a cased character. *)
Definition cased (c : char) : bool := ulower U c || uupper U c || utitle U c.

Definition lowercase_only (c : char) : bool :=
  ulower U c && negb (uupper U c) && negb (utitle U c).

Definition entirely_lowercase (s : str) : Prop :=
  (forall c, In c s -> cased c = true -> lowercase_only c = true)
  /\ exists c, In c s /\ cased c = true.

(** *** The title, as the specification describes it *)

Definition strip_title_prefix (line : str) : str :=
  drop_while (title_prefix_char U) line.

Definition qualifies (line : str) : bool :=
  (3 <? List.length line) && (List.length line <? 200)
  && negb (is_empty (strip_title_prefix line)).

(** The plain text of page 1, when the document opens, has a page and
    the text can be read. *)
Definition first_page_text (W : World) (pdf_path : str) : option str :=
  match fitz_open W pdf_path with
  | Ok doc =>
      match doc_pages doc with
      | first_page :: _ =>
          match page_text first_page with
          | Ok text => Some text
          | Raise _ => None
          end
      | [] => None
      end
  | Raise _ => None
  end.

(** What [extract_title_from_pdf] returns, in one expression; the proofs
    on [process_pdf] use it. *)
Definition title_spec (W : World) (pdf_path : str) : str :=
  match first_page_text W pdf_path with
  | Some text =>
      match find qualifies
              (map (strip U) (firstn 5 (split_on newline text))) with
      | Some line => strip_title_prefix line
      | None => filename_title U W pdf_path
      end
  | None => filename_title U W pdf_path
  end.

(** *** The lines of a document in reading order *)

Definition block_line_list (block : Block) : list Line :=
  match block_lines block with Some lines => lines | None => [] end.

Definition line_heading (page_num : nat) (line : Line) : Heading :=
  {| h_text := strip U (List.concat (map span_text (line_spans line)));
     h_page := page_num |}.

Definition page_headings (numbered : nat * Page) : list Heading :=
  flat_map (fun block => map (line_heading (fst numbered))
                           (block_line_list block))
           (page_blocks (snd numbered)).

Definition reading_order (doc : Document) : list Heading :=
  flat_map page_headings (enumerate 1 (doc_pages doc)).

Definition entry_heading (e : OutlineEntry) : Heading :=
  {| h_text := text e; h_page := page e |}.

(** The classifier fails: loading it raises, or its [predict] does. *)
Definition classifier_fails (W : World) (model_path : str)
    (texts : list str) (e : exn) : Prop :=
  joblib_load W model_path = Raise e
  \/ exists model,
       joblib_load W model_path = Ok model /\ predict model texts = Raise e.

Definition classifier_event (ev : event) : bool :=
  match ev with
  | EvPrint _ => false
  | EvLoad _ => true
  | EvPredict _ => true
  end.

End Words.

(** ** A small world for concrete runs *)

Definition plain_span (t : string) (size : float) (font : string)
    (x y : float) : Span :=
  {| span_text := py t; span_size := size; span_font := Some (py font);
     span_origin := (x, y); span_width := None |}.

Definition one_line (t : string) (size : float) (font : string)
    (x y : float) : Line :=
  {| line_spans := [plain_span t size font x y] |}.

Definition image_block : Block := {| block_lines := None |}.

Definition report_doc : Document :=
  {| doc_pages :=
       [ {| rect_width := 612; rect_height := 792;
            page_blocks :=
              [ {| block_lines :=
                     Some [ one_line "Introduction" 16 "Helvetica-Bold" 72 100;
                            one_line "this report is about the year."
                              10 "Helvetica" 72 130 ] |};
                image_block ];
            page_text :=
              Ok (py "2024" ++ [newline] ++ py "Acme Corp Annual Report"
                  ++ [newline] ++ py "this report is about the year.") |};
         {| rect_width := 612; rect_height := 792;
            page_blocks :=
              [ {| block_lines :=
                     Some [ one_line "1.1 Background" 12 "Helvetica" 72 90;
                            one_line "see the list in [12]" 10 "Helvetica"
                              72 120 ] |} ];
            page_text := Ok (py "1.1 Background") |} ];
     doc_close := Ok tt |}.

Definition notes_doc : Document :=
  {| doc_pages :=
       [ {| rect_width := 612; rect_height := 792;
            page_blocks :=
              [ {| block_lines :=
                     Some [ one_line "nothing here is a heading." 10
                              "Helvetica" 72 100 ] |} ];
            page_text := Raise (LibraryError (py "unreadable page")) |} ];
     doc_close := Ok tt |}.

(** A classifier that tells levels by the numbering of the text. *)
Definition level_model : Model :=
  {| predict := fun texts =>
       Ok (map (fun t => if re_match (re_section_number ascii_db) t
                         then py "H2" else py "H1") texts) |}.

(** A classifier that answers for the first text only. *)
Definition short_model : Model :=
  {| predict := fun texts => Ok (map (fun _ => py "H1") (firstn 1 texts)) |}.

Definition broken_model : Model :=
  {| predict := fun _ => Raise (LibraryError (py "predict failed")) |}.

(** A stem for the concrete worlds, by the rule of [pathlib] for POSIX
    paths: the name is the last component that is neither empty nor ".";
    the suffix starts at the last period of the name when that period is
    neither its first nor its last character, and the stem is the name
    without the suffix. *)
Fixpoint last_index_from (c : char) (s : str) (pos : nat)
    (found : option nat) : option nat :=
  match s with
  | [] => found
  | x :: s' =>
      last_index_from c s' (S pos) (if N.eqb x c then Some pos else found)
  end.

Definition simple_stem (path : str) : str :=
  let parts :=
    filter (fun part => negb (is_empty part) && negb (str_eqb part (py ".")))
           (split_on (ch "/") path) in
  let name := last parts [] in
  match last_index_from (ch ".") name 0 None with
  | Some i =>
      if (0 <? i) && (i <? List.length name - 1) then firstn i name else name
  | None => name
  end.

Definition demo_world : World :=
  {| fitz_open := fun path =>
       if str_eqb path (py "input/annual_report.pdf") then Ok report_doc
       else if str_eqb path (py "input/notes.pdf") then Ok notes_doc
       else Raise (LibraryError (py "cannot open file"));
     joblib_load := fun path =>
       if str_eqb path (py "levels.joblib") then Ok level_model
       else if str_eqb path (py "short.joblib") then Ok short_model
       else if str_eqb path (py "broken.joblib") then Ok broken_model
       else Raise (LibraryError (py "no such model"));
     path_stem := simple_stem |}.

(** The candidates of [report_doc]. *)
Definition report_headings : list Heading :=
  [ {| h_text := py "Introduction"; h_page := 1 |};
    {| h_text := py "1.1 Background"; h_page := 2 |} ].

(** ** The candidates of a document, line by line

    The loops of [extract_headings_from_pdf] read as a function of the
    document: the test of one line, and the headings gathered over the
    lines, blocks and pages, as long as no test raises. *)

Fixpoint gather {A B} (f : A -> Except (list B)) (l : list A)
  : Except (list B) :=
  match l with
  | [] => Ok []
  | a :: l' =>
      bindE (f a) (fun x => bindE (gather f l') (fun y => Ok (x ++ y)))
  end.

Section Candidates.
Context (U : UnicodeDB).

(** The answer of the filter for one line of a page: the line is
    normalized, and [is_heading] is asked unless its text is empty. *)
Definition line_accepted (page : Page) (line : Line) : Except bool :=
  let spans := line_spans line in
  let line_text := strip U (List.concat (map span_text spans)) in
  if is_empty line_text then Ok false else
  let font_size := py_max (map span_size spans) in
  let is_bold :=
    existsb (fun span =>
               contains (py "Bold")
                 (match span_font span with Some f => f | None => [] end))
            spans in
  let x_pos :=
    match spans with
    | first :: _ => Some (fst (span_origin first))
    | [] => None
    end in
  (y_pos <-
    match spans with
    | first :: _ =>
        y <- fdiv (snd (span_origin first)) (rect_height page) ;; Ok (Some y)
    | [] => Ok None
    end ;;
  let width :=
    if is_empty spans then None
    else Some (py_sum (map (fun span =>
                              match span_width span with
                              | Some w => w
                              | None => 0%float
                              end) spans)) in
  is_heading U line_text font_size is_bold y_pos x_pos width
    (Some (rect_width page)))%except.

Definition line_candidates (page_num : nat) (page : Page) (line : Line)
  : Except (list Heading) :=
  bindE (line_accepted page line)
    (fun accepted =>
       Ok (if accepted then [line_heading U page_num line] else [])).

Definition block_candidates (page_num : nat) (page : Page) (block : Block)
  : Except (list Heading) :=
  gather (line_candidates page_num page) (block_line_list block).

Definition page_candidates (numbered : nat * Page) : Except (list Heading) :=
  gather (block_candidates (fst numbered) (snd numbered))
    (page_blocks (snd numbered)).

Definition document_candidates (doc : Document) : Except (list Heading) :=
  gather page_candidates (enumerate 1 (doc_pages doc)).

(** The lines of a page. *)
Definition page_lines (page : Page) : list Line :=
  flat_map block_line_list (page_blocks page).

End Candidates.

(** ** The title, in the words of the specification

    These definitions do not use the functions of the code: the lines of
    a text are given by the text they make when joined by newlines, and
    the replacement of the underscores is written out. *)

(** The text made of the lines [first], [others] joined by newlines. *)
Fixpoint join_lines (first : str) (others : list str) : str :=
  match others with
  | [] => first
  | line :: lines => first ++ newline :: join_lines line lines
  end.

Definition newline_free (line : str) : Prop := ~ In newline line.

Fixpoint underscores_to_spaces (s : str) : str :=
  match s with
  | [] => []
  | c :: s' =>
      (if N.eqb c 95 then 32%N else c) :: underscores_to_spaces s'
  end.

(** ** More words for the properties of the filter *)

Section FilterWords.
Context (U : UnicodeDB).

(** The four pattern rules of [is_heading], on the stripped text. *)
Definition pattern_accepted (line : str) : bool :=
  re_match (re_section_number U) line
  || endswith line (ch ":")
  || istitle U line
  || (isupper U line && (2 <? List.length line)).

(** The characters of the set [[.;,!?]]. *)
Definition sentence_mark (c : char) : bool :=
  N.eqb c (ch ".") || N.eqb c (ch ";") || N.eqb c (ch ",")
  || N.eqb c (ch "!") || N.eqb c (ch "?").

(** The characters of the set [[•\-→]]. *)
Definition bullet_mark (c : char) : bool :=
  N.eqb c bullet || N.eqb c (ch "-") || N.eqb c rightwards_arrow.

(** A text of white space only. *)
Definition blank (s : str) : Prop := forall c, In c s -> uspace U c = true.

(** The division of the centering test does not raise. *)
Definition page_width_usable (page_width : option float) : Prop :=
  match page_width with
  | Some v => PrimFloat.eqb v 0%float = false
  | None => True
  end.

(** The score of the style-based boosts of [is_heading], on the
    stripped text. *)
Definition style_score (line : str) (font_size : option float)
    (is_bold : bool) (y_pos x_pos width page_width : option float)
  : Except float :=
  let score := 0%float in
  let score :=
    if present_and_geb font_size 12 then (score + 0.4)%float else score in
  let score := if is_bold then (score + 0.3)%float else score in
  let score :=
    if List.length (split U line) <? 10 then (score + 0.2)%float else score in
  let score :=
    if present_and_ltb y_pos 0.3 then (score + 0.1)%float else score in
  let score :=
    if isupper U line && (2 <? List.length line) then (score + 0.2)%float
    else score in
  (score <-
    match x_pos, width, page_width with
    | Some x_pos, Some width, Some page_width =>
        center <- fdiv (x_pos + width / 2)%float page_width ;;
        Ok (if PrimFloat.ltb 0.45 center && PrimFloat.ltb center 0.55
            then (score + 0.1)%float else score)
    | _, _, _ => Ok score
    end ;;
  let words := split U line in
  Ok (if is_empty words then score
      else
        let cap_ratio :=
          (float_of_nat (count_if (starts_upper U) words)
           / float_of_nat (List.length words))%float in
        if PrimFloat.ltb 0.7 cap_ratio then (score + 0.1)%float
        else score))%except.

(** The tests of the score, and the sum of the weights of those that
    hold, in tenths. *)
Definition centered (x_pos width page_width : option float) : bool :=
  match x_pos, width, page_width with
  | Some x_pos, Some width, Some page_width =>
      let center := ((x_pos + width / 2) / page_width)%float in
      PrimFloat.ltb 0.45 center && PrimFloat.ltb center 0.55
  | _, _, _ => false
  end.

Definition mostly_capitalized (line : str) : bool :=
  let words := split U line in
  negb (is_empty words)
  && PrimFloat.ltb 0.7
       (float_of_nat (count_if (starts_upper U) words)
        / float_of_nat (List.length words))%float.

Definition score_tenths (line : str) (font_size : option float)
    (is_bold : bool) (y_pos x_pos width page_width : option float) : nat :=
  (if present_and_geb font_size 12 then 4 else 0)
  + (if is_bold then 3 else 0)
  + (if List.length (split U line) <? 10 then 2 else 0)
  + (if present_and_ltb y_pos 0.3 then 1 else 0)
  + (if isupper U line && (2 <? List.length line) then 2 else 0)
  + (if centered x_pos width page_width then 1 else 0)
  + (if mostly_capitalized line then 1 else 0).

(** The lines of a document the filter answers true for, in reading
    order. *)
Definition accepted_b (page : Page) (line : Line) : bool :=
  match line_accepted U page line with
  | Ok true => true
  | _ => false
  end.

Definition accepted_lines (doc : Document) : list Heading :=
  flat_map (fun numbered : nat * Page =>
              map (line_heading U (fst numbered))
                (filter (accepted_b (snd numbered))
                   (page_lines (snd numbered))))
           (enumerate 1 (doc_pages doc)).

End FilterWords.

(** ** [process_all_pdfs]

    The directory operations and the writing of the output are calls to
    the file system.  A path is the [str] that [str(path)] gives. *)

Record FileSystem := {
  path_exists : str -> bool;            (* os.path.exists(path) *)
  mkdir : str -> Except unit;           (* Path(path).mkdir(exist_ok=True) *)
  glob_pdf : str -> Except (list str);  (* list(Path(path).glob("*.pdf")) *)
  path_name : str -> str;               (* Path(path).name *)
  write_json : str -> DocumentOutline -> Except unit
    (* open(path, 'w', encoding='utf-8') and json.dump(result, f, ...) *)
}.

Inductive batch_event :=
| BPrint (msg : str)
| BMkdir (path : str)
| BDocument (ev : event)                       (* an event of [process_pdf] *)
| BWrite (path : str) (doc : DocumentOutline). (* the output is to be written *)

(** [str(n)] for a non-negative [int]. *)
Definition str_of_nat (n : nat) : str :=
  py (NilEmpty.string_of_uint (Nat.to_uint n)).

(** [Path(dir) / name] as a [str]. *)
Definition path_join (dir name : str) : str := dir ++ ch "/" :: name.

Section Batch.
Context (U : UnicodeDB) (W : World) (FS : FileSystem).

(** The body of the loop over the files; the [try] catches every error,
    so the body only adds to the log. *)
Definition process_one (output_dir model_path pdf_file : str)
  : list batch_event :=
  let name := path_name FS pdf_file in
  [BPrint (py "Processing: " ++ name)]
  ++ (* Process the PDF *)
     let (log, outcome) := process_pdf U W pdf_file model_path in
     map BDocument log
     ++ match outcome with
        | Raise e =>
            [BPrint (py "Error processing " ++ name ++ py ": " ++ exn_str e)]
        | Ok result =>
            (* Create output filename *)
            let output_file :=
              path_join output_dir (path_stem W pdf_file ++ py ".json") in
            (* Write JSON output *)
            BWrite output_file result
            :: match write_json FS output_file result with
               | Ok _ => [BPrint (py "Output written to: " ++ output_file)]
               | Raise e =>
                   [BPrint (py "Error processing " ++ name ++ py ": "
                            ++ exn_str e)]
               end
        end.

(** The directories and the model, in Docker and locally. *)
Definition batch_paths : str * str * str :=
  if path_exists FS (py "/app/input")
  then (py "/app/input", py "/app/output",
        py "/app/tfidf_heading_classifier.joblib")
  else (py "app/input", py "app/output", py "tfidf_heading_classifier.joblib").

Definition process_all_pdfs : list batch_event * Except unit :=
  let '(input_dir, output_dir, model_path) := batch_paths in
  (* Ensure output directory exists *)
  match mkdir FS output_dir with
  | Raise e => ([BMkdir output_dir], Raise e)
  | Ok _ =>
      (* Find all PDF files *)
      match glob_pdf FS input_dir with
      | Raise e => ([BMkdir output_dir], Raise e)
      | Ok pdf_files =>
          if is_empty pdf_files then
            ([BMkdir output_dir;
              BPrint (py "No PDF files found in " ++ input_dir)], Ok tt)
          else
            ([BMkdir output_dir;
              BPrint (py "Found " ++ str_of_nat (List.length pdf_files)
                      ++ py " PDF file(s) to process")]
             ++ flat_map (process_one output_dir model_path) pdf_files,
             Ok tt)
      end
  end.

Definition main : list batch_event * Except unit := process_all_pdfs.

Definition batch_input_dir : str := fst (fst batch_paths).
Definition batch_output_dir : str := snd (fst batch_paths).
Definition batch_model_path : str := snd batch_paths.

(** The file has candidates: the classifier is needed for it. *)
Definition has_candidates (pdf_file : str) : bool :=
  match extract_headings_from_pdf U W pdf_file with
  | Ok (_ :: _) => true
  | _ => false
  end.

(** What is read off a log: the outputs the batch sets out to write, the
    models loaded, the messages of the batch. *)
Definition written (ev : batch_event) : option (str * DocumentOutline) :=
  match ev with BWrite path doc => Some (path, doc) | _ => None end.

Definition loaded (ev : batch_event) : option str :=
  match ev with BDocument (EvLoad path) => Some path | _ => None end.

Definition announced (ev : batch_event) : option str :=
  match ev with BPrint msg => Some msg | _ => None end.

Definition touches_documents (ev : batch_event) : bool :=
  match ev with BDocument _ => true | BWrite _ _ => true | _ => false end.

(** The output of one file: its path and its outline, when [process_pdf]
    returns. *)
Definition output_of (output_dir model_path pdf_file : str)
  : option (str * DocumentOutline) :=
  match result (process_pdf U W pdf_file model_path) with
  | Ok doc =>
      Some (path_join output_dir (path_stem W pdf_file ++ py ".json"), doc)
  | Raise _ => None
  end.

End Batch.

(** [filter_map]: the values of [f] that are there, in order. *)
Fixpoint select {A B} (f : A -> option B) (l : list A) : list B :=
  match l with
  | [] => []
  | a :: l' =>
      match f a with Some b => b :: select f l' | None => select f l' end
  end.

(** A world and a file system for concrete runs of the batch: a local
    run over three files, the last of which cannot be opened. *)
Definition batch_world : World :=
  {| fitz_open := fun path =>
       if str_eqb path (py "app/input/annual_report.pdf") then Ok report_doc
       else if str_eqb path (py "app/input/notes.pdf") then Ok notes_doc
       else Raise (LibraryError (py "cannot open file"));
     joblib_load := fun path =>
       if str_eqb path (py "tfidf_heading_classifier.joblib")
       then Ok level_model
       else Raise (LibraryError (py "no such model"));
     path_stem := simple_stem |}.

Definition demo_fs : FileSystem :=
  {| path_exists := fun _ => false;
     mkdir := fun _ => Ok tt;
     glob_pdf := fun dir =>
       if str_eqb dir (py "app/input")
       then Ok [py "app/input/annual_report.pdf"; py "app/input/notes.pdf";
                py "app/input/broken.pdf"]
       else Ok [];
     path_name := fun path => last (split_on (ch "/") path) [];
     write_json := fun _ _ => Ok tt |}.

(** A document whose only page has height zero, and a world that opens
    it. *)
Definition flat_page : Page :=
  {| rect_width := 612; rect_height := 0;
     page_blocks :=
       [ {| block_lines := Some [one_line "Title" 12 "Helvetica" 72 0] |} ];
     page_text := Ok (py "Title") |}.

Definition flat_doc : Document :=
  {| doc_pages := [flat_page]; doc_close := Ok tt |}.

Definition flat_world : World :=
  {| fitz_open := fun _ => Ok flat_doc;
     joblib_load := fun _ => Ok level_model;
     path_stem := simple_stem |}.

(** A classifier that answers with one label too many. *)
Definition long_model : Model :=
  {| predict := fun texts => Ok (map (fun _ => py "H1") texts ++ [py "H9"]) |}.

Definition long_world : World :=
  {| fitz_open := fitz_open demo_world;
     joblib_load := fun _ => Ok long_model;
     path_stem := simple_stem |}.

(** A file system whose output directory cannot be made. *)
Definition readonly_fs : FileSystem :=
  {| path_exists := fun _ => true;
     mkdir := fun _ => Raise (LibraryError (py "read-only file system"));
     glob_pdf := fun _ => Ok [py "/app/input/annual_report.pdf"];
     path_name := fun path => last (split_on (ch "/") path) [];
     write_json := fun _ _ => Ok tt |}.

(** * Properties *)

(** ** Matching *)

Lemma in_is_empty {A} (x : A) l : In x l -> negb (is_empty l) = true.
Proof. destruct l; simpl; [contradiction | reflexivity]. Qed.

(** A match consumes what it advances by. *)
Lemma Matches_balance r a b :
  Matches r a b ->
  fst b + List.length (snd b) = fst a + List.length (snd a).
Proof.
  induction 1; simpl in *; lia.
Qed.

Lemma star_run_self body fuel st : In st (star_run body fuel st).
Proof.
  destruct fuel; simpl; [now left|].
  apply in_or_app. right. now left.
Qed.

Lemma star_run_step body fuel a b c :
  In b (body a) -> fst a < fst b -> In c (star_run body fuel b) ->
  In c (star_run body (S fuel) a).
Proof.
  intros Hb Hlt Hc. simpl. apply in_or_app. left.
  apply in_flat_map. exists b. split; [assumption|].
  apply Nat.ltb_lt in Hlt. now rewrite Hlt.
Qed.

Lemma star_run_mono body fuel : forall st c,
  In c (star_run body fuel st) -> In c (star_run body (S fuel) st).
Proof.
  induction fuel as [|fuel IH]; intros st c H.
  - simpl in H. destruct H as [<-|[]]. apply star_run_self.
  - simpl in H. apply in_app_or in H as [H|H].
    + apply in_flat_map in H as (b & Hb & Hc).
      destruct (fst st <? fst b) eqn:E; [|contradiction].
      apply Nat.ltb_lt in E.
      apply star_run_step with b; auto.
    + destruct H as [<-|[]]. apply star_run_self.
Qed.

Lemma star_run_more body fuel fuel' st c :
  fuel <= fuel' -> In c (star_run body fuel st) -> In c (star_run body fuel' st).
Proof.
  induction 1; auto using star_run_mono.
Qed.

(** [run] finds every match. *)
Lemma run_complete r a b : Matches r a b -> In b (run r a).
Proof.
  induction 1; simpl.
  - rewrite N.eqb_refl. now left.
  - rewrite H. now left.
  - apply in_flat_map. eauto.
  - apply star_run_self.
  - pose proof (Matches_balance _ _ _ H) as Hbal.
    simpl in IHMatches2.
    destruct (List.length (snd a)) as [|fuel] eqn:E; [lia|].
    apply star_run_step with b; auto.
    apply star_run_more with (List.length (snd b)); [lia | assumption].
  - now left.
  - now left.
  - now left.
Qed.

(** [run] finds matches only. *)
Lemma star_run_sound r fuel :
  (forall a b, In b (run r a) -> Matches r a b) ->
  forall a c, In c (star_run (run r) fuel a) -> Matches (RStar r) a c.
Proof.
  intros Hr. induction fuel as [|fuel IH]; intros a c H; simpl in H.
  - destruct H as [<-|[]]. constructor.
  - apply in_app_or in H as [H|H].
    + apply in_flat_map in H as (b & Hb & Hc).
      destruct (fst a <? fst b) eqn:E; [|contradiction].
      apply Nat.ltb_lt in E. eapply MStarCons; eauto.
    + destruct H as [<-|[]]. constructor.
Qed.

Lemma run_sound r : forall a b, In b (run r a) -> Matches r a b.
Proof.
  induction r; intros [n s] b H; simpl in H.
  - destruct s as [|x s]; [contradiction|].
    destruct (N.eqb x c) eqn:E; [|contradiction].
    apply N.eqb_eq in E. subst x. destruct H as [<-|[]]. constructor.
  - destruct s as [|x s]; [contradiction|].
    destruct (p x) eqn:E; [|contradiction].
    destruct H as [<-|[]]. now constructor.
  - apply in_flat_map in H as (m & Hm & Hb). econstructor; eauto.
  - eapply star_run_sound; eauto.
  - destruct n; simpl in H; [|contradiction].
    destruct H as [<-|[]]. constructor.
  - destruct s as [|x [|y s]]; simpl in H.
    + destruct H as [<-|[]]. constructor.
    + destruct (N.eqb x newline) eqn:E; [|contradiction].
      apply N.eqb_eq in E. subst x. destruct H as [<-|[]]. constructor.
    + contradiction.
Qed.

Lemma re_match_Matches r s b : Matches r (0, s) b -> re_match r s = true.
Proof.
  intros H. unfold re_match. eapply in_is_empty, run_complete, H.
Qed.

Lemma search_from_offset r : forall before pos s b,
  Matches r (pos + List.length before, s) b ->
  search_from r pos (before ++ s) = true.
Proof.
  induction before as [|x before IH]; intros pos s b H; simpl in *.
  - rewrite Nat.add_0_r in H.
    destruct s; simpl; rewrite (in_is_empty _ _ (run_complete _ _ _ H));
      reflexivity.
  - apply orb_true_iff. right. apply IH with b.
    replace (S pos + List.length before) with (pos + S (List.length before))
      by lia.
    assumption.
Qed.

Lemma re_search_Matches r before s b :
  Matches r (List.length before, s) b -> re_search r (before ++ s) = true.
Proof.
  intros H. unfold re_search. now apply search_from_offset with b.
Qed.

(** A run of characters of a set is matched by the star and the plus of
    the set. *)
Lemma Matches_star_set (p : char -> bool) : forall run_ n rest,
  Forall (fun c => p c = true) run_ ->
  Matches (RStar (RSet p)) (n, run_ ++ rest) (n + List.length run_, rest).
Proof.
  induction run_ as [|c run_ IH]; intros n rest H; simpl.
  - rewrite Nat.add_0_r. constructor.
  - inversion H; subst.
    eapply MStarCons with (b := (S n, run_ ++ rest)).
    + now constructor.
    + simpl; lia.
    + replace (n + S (List.length run_)) with (S n + List.length run_)
        by lia.
      now apply IH.
Qed.

Lemma Matches_plus_set (p : char -> bool) run_ n rest :
  run_ <> [] -> Forall (fun c => p c = true) run_ ->
  Matches (RPlus (RSet p)) (n, run_ ++ rest) (n + List.length run_, rest).
Proof.
  intros Hne H. destruct run_ as [|c run_]; [congruence|].
  inversion H; subst. simpl.
  eapply MCat with (b := (S n, run_ ++ rest)).
  - now constructor.
  - replace (n + S (List.length run_)) with (S n + List.length run_) by lia.
    now apply Matches_star_set.
Qed.

(** ** Stripping *)

Section StripFacts.
Context (U : UnicodeDB).

Lemma lstrip_keeps before c rest :
  uspace U c = false ->
  lstrip U (before ++ c :: rest) = lstrip U before ++ c :: rest.
Proof.
  intros Hc. induction before as [|x before IH]; simpl.
  - now rewrite Hc.
  - destruct (uspace U x); [assumption | reflexivity].
Qed.

Lemma rstrip_keeps before c rest :
  uspace U c = false ->
  rstrip U (before ++ c :: rest) = before ++ c :: rstrip U rest.
Proof.
  intros Hc. unfold rstrip.
  rewrite rev_app_distr. simpl. rewrite <- app_assoc. simpl.
  rewrite lstrip_keeps by assumption.
  rewrite rev_app_distr. simpl. rewrite rev_involutive.
  now rewrite <- app_assoc.
Qed.

Lemma lstrip_length s : List.length (lstrip U s) <= List.length s.
Proof.
  induction s as [|c s IH]; simpl; [lia|].
  destruct (uspace U c); simpl; lia.
Qed.

(** A text is unchanged by [lstrip] exactly when it does not start with
    white space. *)
Lemma lstrip_fixed c s : lstrip U (c :: s) = c :: s <-> uspace U c = false.
Proof.
  simpl. destruct (uspace U c) eqn:E; split; intros H; try easy.
  pose proof (lstrip_length s) as L. rewrite H in L. simpl in L. lia.
Qed.

Lemma lstrip_idempotent s : lstrip U (lstrip U s) = lstrip U s.
Proof.
  induction s as [|c s IH]; simpl; [reflexivity|].
  destruct (uspace U c) eqn:E; [assumption|].
  simpl. now rewrite E.
Qed.

Lemma lstrip_starts s c rest : lstrip U s = c :: rest -> uspace U c = false.
Proof.
  intros H. apply (lstrip_fixed c rest).
  rewrite <- H. apply lstrip_idempotent.
Qed.

(** A suffix of a text without trailing white space has none either. *)
Lemma rstrip_suffix before s :
  rstrip U (before ++ s) = before ++ s -> rstrip U s = s.
Proof.
  unfold rstrip. intros H.
  apply (f_equal (@rev char)) in H. rewrite rev_involutive in H.
  rewrite rev_app_distr in H.
  destruct (rev s) as [|c t] eqn:E.
  - simpl. apply (f_equal (@rev char)) in E.
    rewrite rev_involutive in E. now rewrite E.
  - assert (Hc : uspace U c = false).
    { apply (proj1 (lstrip_fixed c (t ++ rev before))). exact H. }
    rewrite (proj2 (lstrip_fixed c t) Hc).
    rewrite <- E. apply rev_involutive.
Qed.

Lemma rstrip_idempotent s : rstrip U (rstrip U s) = rstrip U s.
Proof.
  unfold rstrip. rewrite rev_involutive. now rewrite lstrip_idempotent.
Qed.

Lemma strip_no_trailing_space s : rstrip U (strip U s) = strip U s.
Proof. unfold strip. apply rstrip_idempotent. Qed.

(** [split] yields no empty word, so [w[0]] is always there. *)
Lemma split_from_nonempty s : forall word,
  Forall (fun w => w <> []) (split_from U s word).
Proof.
  induction s as [|c s IH]; intros word; simpl.
  - destruct word; simpl; repeat constructor. discriminate.
  - destruct (uspace U c); [|apply IH].
    destruct word; simpl; [apply IH|].
    constructor; [discriminate | apply IH].
Qed.

Lemma split_nonempty s : Forall (fun w => w <> []) (split U s).
Proof. apply split_from_nonempty. Qed.

Lemma drop_while_suffix {A} (p : A -> bool) l :
  exists before, l = before ++ drop_while p l.
Proof.
  induction l as [|x l [before IH]]; simpl.
  - now exists [].
  - destruct (p x).
    + exists (x :: before). simpl. now rewrite <- IH.
    + now exists [].
Qed.

Lemma drop_while_head {A} (p : A -> bool) l x rest :
  drop_while p l = x :: rest -> p x = false.
Proof.
  induction l as [|y l IH]; simpl; [discriminate|].
  destruct (p y) eqn:E; [assumption|].
  intros H. now inversion H; subst.
Qed.

End StripFacts.

(** ** The heading filter *)

Section Filter.
Context (U : UnicodeDB).

(** A rejection rule that fires settles the answer, whatever the style. *)
Lemma is_heading_rejected line font_size is_bold y_pos x_pos width page_width :
  rejected U (strip U line) = true ->
  is_heading U line font_size is_bold y_pos x_pos width page_width
  = Ok false.
Proof.
  unfold rejected, is_heading. cbv zeta. intros H.
  repeat match goal with
         | |- (if ?c then Ok false else _) = Ok false =>
             destruct c eqn:?; [reflexivity|]
         end.
  simpl in H. discriminate H.
Qed.

(** After the rejection rules, a numbered text is accepted. *)
Lemma is_heading_section_number line font_size is_bold y_pos x_pos width
    page_width :
  rejected U (strip U line) = false ->
  re_match (re_section_number U) (strip U line) = true ->
  is_heading U line font_size is_bold y_pos x_pos width page_width
  = Ok true.
Proof.
  unfold rejected, is_heading. cbv zeta. intros H Hm.
  repeat (apply orb_false_iff in H as [H ?]).
  repeat match goal with
         | E : ?c = false |- context [if ?c then _ else _] => rewrite E
         end.
  now rewrite Hm.
Qed.

Lemma ascii_not_space c :
  is_ascii c -> ascii_isspace c = false -> uspace U c = false.
Proof. intros Ha Hs. now rewrite uspace_ascii. Qed.

Lemma islower_from_lowercase s : forall cased0,
  (forall c, In c s -> uupper U c || utitle U c = false) ->
  islower_from U s cased0 = cased0 || existsb (ulower U) s.
Proof.
  induction s as [|c s IH]; intros cased0 H; simpl.
  - now rewrite orb_false_r.
  - rewrite (H c) by now left.
    rewrite IH by (intros; apply H; now right).
    now rewrite orb_assoc.
Qed.

Lemma entirely_lowercase_islower s :
  entirely_lowercase U s -> islower U s = true.
Proof.
  intros [Hall (c & Hin & Hc)].
  assert (Hlow : forall x, In x s -> cased U x = true -> ulower U x = true
                             /\ uupper U x || utitle U x = false).
  { intros x Hx Hcx. specialize (Hall x Hx Hcx). unfold lowercase_only in Hall.
    apply andb_prop in Hall as [Hall Ht]. apply andb_prop in Hall as [Hl Hu].
    apply negb_true_iff in Ht, Hu. now rewrite Ht, Hu. }
  assert (Hno : forall x, In x s -> uupper U x || utitle U x = false).
  { intros x Hx. destruct (cased U x) eqn:E.
    - now apply Hlow.
    - unfold cased in E. apply orb_false_iff in E as [E Et].
      apply orb_false_iff in E as [_ Eu]. now rewrite Eu, Et. }
  assert (Hex : existsb (ulower U) s = true).
  { apply existsb_exists. exists c. split; [assumption|]. now apply Hlow. }
  unfold islower. destruct s as [|x [|y s]].
  - contradiction.
  - simpl in Hex. now rewrite orb_false_r in Hex.
  - now rewrite islower_from_lowercase.
Qed.

(** The pattern for references finds a bracketed integer. *)
Lemma re_reference_found s :
  contains_reference U s -> re_search (re_reference U) s = true.
Proof.
  intros (before & digits & after & [Hne Hd] & ->).
  apply re_search_Matches with (b := (List.length before + 1 + List.length digits + 1, after)).
  unfold re_reference.
  eapply MCat; [constructor|].
  eapply MCat with (b := (S (List.length before) + List.length digits, ch "]" :: after)).
  - now apply Matches_plus_set.
  - replace (List.length before + 1 + List.length digits + 1)
      with (S (S (List.length before) + List.length digits)) by lia.
    constructor.
Qed.

(** Stripping keeps a bracketed integer. *)
Lemma contains_reference_strip s :
  contains_reference U s -> contains_reference U (strip U s).
Proof.
  intros (before & digits & after & Hd & ->).
  exists (lstrip U before), digits, (rstrip U after). split; [assumption|].
  unfold strip.
  rewrite lstrip_keeps by (apply ascii_not_space; reflexivity).
  change (lstrip U before ++ ch "[" :: digits ++ ch "]" :: after)
    with (lstrip U before ++ (ch "[" :: digits) ++ ch "]" :: after).
  rewrite app_assoc.
  rewrite rstrip_keeps by (apply ascii_not_space; reflexivity).
  now rewrite <- app_assoc.
Qed.

(** The pattern for section numbers matches a numeric section prefix. *)
Lemma Matches_more_groups others : forall n rest,
  Forall (digit_group U) others ->
  exists m,
    Matches (RStar (RCat (RChar (ch ".")) (RPlus (RSet (udecimal U)))))
      (n, fold_right (fun g acc => ch "." :: g ++ acc) rest others)
      (m, rest).
Proof.
  induction others as [|g gs IH]; intros n rest H; simpl.
  - exists n. constructor.
  - inversion H as [|? ? [Hne Hg] Hgs]; subst.
    destruct (IH (S n + List.length g) rest Hgs) as [m Hm].
    exists m.
    eapply MStarCons; [| |exact Hm].
    + eapply MCat; [constructor|]. now apply Matches_plus_set.
    + simpl. lia.
Qed.

Lemma join_groups_fold first others rest :
  join_groups first others ++ rest
  = first ++ fold_right (fun g acc => ch "." :: g ++ acc) rest others.
Proof.
  revert first. induction others as [|g gs IH]; intros first; simpl.
  - reflexivity.
  - rewrite <- app_assoc. simpl. now rewrite IH.
Qed.

Lemma re_section_number_found s :
  starts_with_section_number U s ->
  re_match (re_section_number U) s = true.
Proof.
  intros (first & others & space & rest & [Hne Hd] & Ho & Hs & ->).
  rewrite join_groups_fold.
  destruct (Matches_more_groups others (0 + List.length first)
              (space :: rest) Ho) as [m Hm].
  apply re_match_Matches with (b := (S m, rest)).
  unfold re_section_number.
  eapply MCat; [constructor|].
  eapply MCat; [now apply Matches_plus_set|].
  eapply MCat; [exact Hm|].
  now constructor.
Qed.

End Filter.

(** ** ASCII text

    On ASCII text every character database gives what [ascii_db] gives,
    so a run of [is_heading] with [ascii_db] on ASCII text is its run
    with the tables of the interpreter. *)

Lemma Matches_suffix r a b :
  Matches r a b -> exists consumed, snd a = consumed ++ snd b.
Proof.
  induction 1; simpl in *.
  - now exists [c].
  - now exists [c].
  - destruct IHMatches1 as [x ->]. destruct IHMatches2 as [y ->].
    exists (x ++ y). now rewrite app_assoc.
  - now exists [].
  - destruct IHMatches1 as [x ->]. destruct IHMatches2 as [y ->].
    exists (x ++ y). now rewrite app_assoc.
  - now exists [].
  - now exists [].
  - now exists [].
Qed.

Lemma run_keeps_ascii r a b :
  In b (run r a) -> Forall is_ascii (snd a) -> Forall is_ascii (snd b).
Proof.
  intros H Ha. apply run_sound in H. apply Matches_suffix in H as [x Hx].
  rewrite Hx in Ha. now apply Forall_app in Ha.
Qed.

Lemma flat_map_agree {A B} (f g : A -> list B) l :
  (forall a, In a l -> f a = g a) -> flat_map f l = flat_map g l.
Proof.
  induction l as [|a l IH]; intros H; simpl; [reflexivity|].
  rewrite (H a) by now left.
  rewrite IH by (intros; apply H; now right). reflexivity.
Qed.

Lemma star_run_agree r q fuel :
  (forall st, Forall is_ascii (snd st) -> run r st = run q st) ->
  forall st, Forall is_ascii (snd st) ->
             star_run (run r) fuel st = star_run (run q) fuel st.
Proof.
  intros Hbody. induction fuel as [|fuel IH]; intros st Hst; simpl;
    [reflexivity|].
  rewrite <- (Hbody st Hst). f_equal.
  apply flat_map_agree. intros st' Hin.
  destruct (_ <? _); [|reflexivity].
  apply IH. eapply run_keeps_ascii; eauto.
Qed.

Lemma run_agree r q :
  same_on_ascii r q ->
  forall st, Forall is_ascii (snd st) -> run r st = run q st.
Proof.
  induction 1; intros [n s] Hs; simpl in *; try reflexivity.
  - destruct s as [|x s]; [reflexivity|].
    inversion Hs; subst. now rewrite H.
  - rewrite <- (IHsame_on_ascii1 (n, s) Hs).
    apply flat_map_agree. intros st Hin.
    apply IHsame_on_ascii2. eapply run_keeps_ascii; eauto.
  - now apply star_run_agree.
Qed.

Lemma re_match_agree r q s :
  same_on_ascii r q -> Forall is_ascii s -> re_match r s = re_match q s.
Proof.
  intros H Hs. unfold re_match. do 2 f_equal. now apply run_agree.
Qed.

Lemma re_search_agree r q s :
  same_on_ascii r q -> Forall is_ascii s -> re_search r s = re_search q s.
Proof.
  intros H. unfold re_search. generalize 0.
  induction s as [|c s IH]; intros n Hs; simpl.
  - do 3 f_equal. now apply run_agree.
  - inversion Hs; subst. f_equal; [|now apply IH].
    do 2 f_equal. now apply run_agree.
Qed.

Section AsciiText.
Context (U : UnicodeDB).

Lemma uspace_agree c : is_ascii c -> uspace U c = uspace ascii_db c.
Proof. intros H. now rewrite !uspace_ascii. Qed.

Lemma udecimal_agree c : is_ascii c -> udecimal U c = udecimal ascii_db c.
Proof. intros H. now rewrite !udecimal_ascii. Qed.

Lemma ulower_agree c : is_ascii c -> ulower U c = ulower ascii_db c.
Proof. intros H. now rewrite !ulower_ascii. Qed.

Lemma uupper_agree c : is_ascii c -> uupper U c = uupper ascii_db c.
Proof. intros H. now rewrite !uupper_ascii. Qed.

Lemma utitle_agree c : is_ascii c -> utitle U c = utitle ascii_db c.
Proof. intros H. now rewrite !utitle_ascii. Qed.

Lemma str_lower_agree s :
  Forall is_ascii s -> str_lower U s = str_lower ascii_db s.
Proof. intros H. now rewrite !str_lower_ascii. Qed.

Lemma lstrip_agree s : Forall is_ascii s -> lstrip U s = lstrip ascii_db s.
Proof.
  induction 1 as [|c s Hc Hs IH]; cbn [lstrip]; [reflexivity|].
  rewrite (uspace_agree c Hc). now rewrite IH.
Qed.

Lemma lstrip_keeps_ascii s : Forall is_ascii s -> Forall is_ascii (lstrip U s).
Proof.
  induction 1 as [|c s Hc Hs IH]; simpl; [constructor|].
  destruct (uspace U c); [assumption | now constructor].
Qed.

Lemma strip_agree s : Forall is_ascii s -> strip U s = strip ascii_db s.
Proof.
  intros H. unfold strip, rstrip.
  rewrite (lstrip_agree s H).
  rewrite lstrip_agree; [reflexivity|].
  apply Forall_rev.
  rewrite <- (lstrip_agree s H). now apply lstrip_keeps_ascii.
Qed.

Lemma strip_keeps_ascii s : Forall is_ascii s -> Forall is_ascii (strip U s).
Proof.
  intros H. unfold strip, rstrip.
  apply Forall_rev, lstrip_keeps_ascii, Forall_rev.
  now apply lstrip_keeps_ascii.
Qed.

Lemma split_from_agree s : forall word,
  Forall is_ascii s -> split_from U s word = split_from ascii_db s word.
Proof.
  induction s as [|c s IH]; intros word H; cbn [split_from]; [reflexivity|].
  inversion H; subst.
  rewrite (uspace_agree c) by assumption.
  now rewrite !IH.
Qed.

Lemma split_agree s : Forall is_ascii s -> split U s = split ascii_db s.
Proof. apply split_from_agree. Qed.

Lemma split_from_keeps_ascii s : forall word,
  Forall is_ascii s -> Forall is_ascii word ->
  Forall (Forall is_ascii) (split_from U s word).
Proof.
  induction s as [|c s IH]; intros word H Hw; simpl.
  - destruct (is_empty word); repeat constructor; assumption.
  - inversion H; subst.
    destruct (uspace U c).
    + destruct (is_empty word); [|constructor; [assumption|]];
        apply IH; auto.
    + apply IH; [assumption|]. apply Forall_app. split; [assumption|].
      now repeat constructor.
Qed.

Lemma islower_agree s : Forall is_ascii s -> islower U s = islower ascii_db s.
Proof.
  intros H.
  assert (Hfrom : forall cased0,
             islower_from U s cased0 = islower_from ascii_db s cased0).
  { induction H as [|c s Hc Hs IH]; intros cased0; cbn [islower_from];
      [reflexivity|].
    rewrite (uupper_agree c Hc), (utitle_agree c Hc), (ulower_agree c Hc).
    now rewrite IH. }
  unfold islower. destruct s as [|c [|d s]]; auto.
  inversion H; subst. now apply ulower_agree.
Qed.

Lemma isupper_agree s : Forall is_ascii s -> isupper U s = isupper ascii_db s.
Proof.
  intros H.
  assert (Hfrom : forall cased0,
             isupper_from U s cased0 = isupper_from ascii_db s cased0).
  { induction H as [|c s Hc Hs IH]; intros cased0; cbn [isupper_from];
      [reflexivity|].
    rewrite (uupper_agree c Hc), (utitle_agree c Hc), (ulower_agree c Hc).
    now rewrite IH. }
  unfold isupper. destruct s as [|c [|d s]]; auto.
  inversion H; subst. now apply uupper_agree.
Qed.

Lemma istitle_agree s : Forall is_ascii s -> istitle U s = istitle ascii_db s.
Proof.
  intros H.
  assert (Hfrom : forall cased0 previous,
             istitle_from U s cased0 previous
             = istitle_from ascii_db s cased0 previous).
  { induction H as [|c s Hc Hs IH]; intros cased0 previous;
      cbn [istitle_from]; [reflexivity|].
    rewrite (uupper_agree c Hc), (utitle_agree c Hc), (ulower_agree c Hc).
    now rewrite !IH. }
  unfold istitle. destruct s as [|c [|d s]]; auto.
  inversion H; subst.
  now rewrite (utitle_agree c), (uupper_agree c).
Qed.

Lemma re_reference_same : same_on_ascii (re_reference U) (re_reference ascii_db).
Proof.
  unfold re_reference, RPlus.
  repeat constructor; apply udecimal_agree; assumption.
Qed.

Lemma re_section_number_same :
  same_on_ascii (re_section_number U) (re_section_number ascii_db).
Proof.
  unfold re_section_number, RPlus.
  repeat constructor;
    first [apply udecimal_agree | apply uspace_agree]; assumption.
Qed.

Lemma count_starts_upper_agree words :
  Forall (Forall is_ascii) words ->
  count_if (starts_upper U) words = count_if (starts_upper ascii_db) words.
Proof.
  intros H. unfold count_if. f_equal.
  induction H as [|w words Hw Hws IH]; simpl; [reflexivity|].
  assert (Hsame : starts_upper U w = starts_upper ascii_db w).
  { destruct w as [|c w]; [reflexivity|].
    inversion Hw; subst. now apply uupper_agree. }
  now rewrite Hsame, IH.
Qed.

(** [is_heading] on ASCII text does not depend on the database. *)
Lemma is_heading_ascii line font_size is_bold y_pos x_pos width page_width :
  Forall is_ascii line ->
  is_heading U line font_size is_bold y_pos x_pos width page_width
  = is_heading ascii_db line font_size is_bold y_pos x_pos width page_width.
Proof.
  intros H. unfold is_heading.
  rewrite (strip_agree line H).
  pose proof (strip_keeps_ascii line H) as Hs.
  rewrite (strip_agree line H) in Hs.
  set (l := strip ascii_db line) in *.
  cbv zeta.
  rewrite (split_agree l Hs), (islower_agree l Hs), (str_lower_agree l Hs),
    (istitle_agree l Hs), (isupper_agree l Hs).
  rewrite (split_agree (str_lower ascii_db l)).
  2: { rewrite (str_lower_ascii ascii_db l Hs).
       apply Forall_forall. intros c Hc.
       apply in_map_iff in Hc as (x & <- & Hx).
       rewrite Forall_forall in Hs. specialize (Hs x Hx).
       unfold is_ascii, ascii_tolower, ascii_isupper in *.
       destruct (N.leb 65 x && N.leb x 90) eqn:E; [|assumption].
       apply andb_prop in E as [_ E]. apply N.leb_le in E. lia. }
  rewrite (re_search_agree _ _ l re_reference_same Hs).
  rewrite (re_match_agree _ _ l re_section_number_same Hs).
  rewrite (count_starts_upper_agree (split ascii_db l)).
  2: { rewrite <- (split_agree l Hs).
       apply split_from_keeps_ascii; [assumption | constructor]. }
  reflexivity.
Qed.

End AsciiText.

Lemma py_is_ascii_test s :
  forallb (fun c => N.ltb c 128) s = true -> Forall is_ascii s.
Proof.
  intros H. apply Forall_forall. intros c Hc.
  rewrite forallb_forall in H. apply N.ltb_lt. now apply H.
Qed.

(** A test for [entirely_lowercase] that computes. *)
Lemma entirely_lowercase_test U s :
  forallb (fun c => negb (cased U c) || lowercase_only U c) s
  && existsb (cased U) s = true ->
  entirely_lowercase U s.
Proof.
  intros H. apply andb_prop in H as [Hall Hex]. split.
  - intros c Hin Hc. rewrite forallb_forall in Hall.
    specialize (Hall c Hin). now rewrite Hc in Hall.
  - apply existsb_exists in Hex as (c & Hin & Hc). now exists c.
Qed.

(** ** The claims on [is_heading] *)

(** C1, as stated, fails: the text "1.2.3 introduction" starts with a
    numeric section prefix, and [is_heading] returns false for it, because
    the rule for lowercase text rejects it before the rule for section
    numbers is tried. *)
Lemma C1_lowercase_numbered_line_rejected :
  starts_with_section_number ascii_db (py "1.2.3 introduction")
  /\ is_heading ascii_db (py "1.2.3 introduction")
       None false None None None None = Ok false.
Proof.
  split.
  - exists (py "1"), [py "2"; py "3"], (ch " "), (py "introduction").
    repeat split; try discriminate; repeat constructor; discriminate.
  - vm_compute. reflexivity.
Qed.

(** C1, amended: for every line that no rejection rule rejects and whose
    stripped text starts with a numeric section prefix (groups of digits
    separated by periods, followed by white space), [is_heading] returns
    true, whatever [font_size], [is_bold], [y_pos], [x_pos], [width] and
    [page_width] are. *)
Theorem C1_numbered_line_accepted (U : UnicodeDB) (line : str)
    (font_size : option float) (is_bold : bool)
    (y_pos x_pos width page_width : option float) :
  rejected U (strip U line) = false ->
  starts_with_section_number U (strip U line) ->
  is_heading U line font_size is_bold y_pos x_pos width page_width = Ok true.
Proof.
  intros Hrej Hnum.
  apply is_heading_section_number; [assumption|].
  now apply re_section_number_found.
Qed.

Lemma C1_numbered_line_accepted_witness :
  rejected ascii_db (strip ascii_db (py " 1.2.3 Introduction ")) = false
  /\ starts_with_section_number ascii_db
       (strip ascii_db (py " 1.2.3 Introduction "))
  /\ is_heading ascii_db (py " 1.2.3 Introduction ")
       (Some 9%float) false (Some 0.9%float) None None None = Ok true.
Proof.
  assert (Hrej : rejected ascii_db (strip ascii_db (py " 1.2.3 Introduction "))
                 = false) by (vm_compute; reflexivity).
  assert (Hnum : starts_with_section_number ascii_db
                   (strip ascii_db (py " 1.2.3 Introduction "))).
  { exists (py "1"), [py "2"; py "3"], (ch " "), (py "Introduction").
    repeat split; try discriminate; repeat constructor; discriminate. }
  split; [exact Hrej|]. split; [exact Hnum|].
  exact (C1_numbered_line_accepted ascii_db (py " 1.2.3 Introduction ")
           (Some 9%float) false (Some 0.9%float) None None None Hrej Hnum).
Defined.

(** C3: for every line whose text contains a bracketed integer such as
    "[12]", [is_heading] returns false, whatever the style arguments are:
    the rejection rules come before the acceptance rules and the score. *)
Theorem C3_reference_rejected (U : UnicodeDB) (line : str)
    (font_size : option float) (is_bold : bool)
    (y_pos x_pos width page_width : option float) :
  contains_reference U line ->
  is_heading U line font_size is_bold y_pos x_pos width page_width = Ok false.
Proof.
  intros H. apply is_heading_rejected.
  unfold rejected.
  rewrite (re_reference_found U _ (contains_reference_strip U _ H)).
  now rewrite !orb_true_r.
Qed.

Lemma C3_reference_rejected_witness :
  contains_reference ascii_db (py "Results Of Study [12]")
  /\ is_heading ascii_db (py "Results Of Study [12]")
       (Some 18%float) true (Some 0.1%float)
       (Some 200%float) (Some 212%float) (Some 612%float) = Ok false.
Proof.
  assert (H : contains_reference ascii_db (py "Results Of Study [12]")).
  { exists (py "Results Of Study "), (py "12"), [].
    repeat split; try discriminate; repeat constructor. }
  split; [exact H|].
  exact (C3_reference_rejected ascii_db (py "Results Of Study [12]")
           (Some 18%float) true (Some 0.1%float)
           (Some 200%float) (Some 212%float) (Some 612%float) H).
Defined.

(** The text of the counterexample to C1 is refused whatever the
    character tables are beyond ASCII. *)
Lemma numbered_lowercase_text_refused (U : UnicodeDB) :
  is_heading U (py "1.2.3 introduction") None false None None None None
  = Ok false.
Proof.
  rewrite is_heading_ascii
    by (apply py_is_ascii_test; vm_compute; reflexivity).
  vm_compute. reflexivity.
Qed.

(** C4 fails on the code: the pattern for section numbers does not match
    "1. Introduction", since the period after "1" is followed by a space
    and not by a digit.  The call still returns true, by the rule for
    title case.  A text such as "1. Scope of work", which is not in title
    case, is left to the score and is refused without style, while
    "1 Scope of work" is accepted by the pattern. *)
Theorem C4_period_after_number_not_matched (U : UnicodeDB) :
  re_match (re_section_number U) (py "1. Introduction") = false
  /\ istitle U (py "1. Introduction") = true
  /\ is_heading U (py "1. Introduction")
       (Some 14%float) true (Some 0.1%float) None None None = Ok true
  /\ is_heading U (py "1. Scope of work")
       None false None None None None = Ok false
  /\ is_heading U (py "1 Scope of work")
       None false None None None None = Ok true.
Proof.
  assert (Hascii : forall s, forallb (fun c => N.ltb c 128) (py s) = true ->
                             Forall is_ascii (py s))
    by (intros; now apply py_is_ascii_test).
  repeat split.
  - rewrite (re_match_agree _ _ _ (re_section_number_same U))
      by (apply Hascii; vm_compute; reflexivity).
    vm_compute. reflexivity.
  - rewrite istitle_agree by (apply Hascii; vm_compute; reflexivity).
    vm_compute. reflexivity.
  - rewrite is_heading_ascii by (apply Hascii; vm_compute; reflexivity).
    vm_compute. reflexivity.
  - rewrite is_heading_ascii by (apply Hascii; vm_compute; reflexivity).
    vm_compute. reflexivity.
  - rewrite is_heading_ascii by (apply Hascii; vm_compute; reflexivity).
    vm_compute. reflexivity.
Qed.

(** C5: for every line whose stripped text is entirely lowercase (every
    cased character is lowercase and there is a cased character, so the
    text is not empty), [is_heading] returns false, whatever the style
    arguments are. *)
Theorem C5_lowercase_rejected (U : UnicodeDB) (line : str)
    (font_size : option float) (is_bold : bool)
    (y_pos x_pos width page_width : option float) :
  entirely_lowercase U (strip U line) ->
  is_heading U line font_size is_bold y_pos x_pos width page_width = Ok false.
Proof.
  intros H. apply is_heading_rejected.
  unfold rejected.
  rewrite (entirely_lowercase_islower U _ H).
  now rewrite !orb_true_r.
Qed.

Lemma C5_lowercase_rejected_witness :
  entirely_lowercase ascii_db (strip ascii_db (py "  summary of results "))
  /\ is_heading ascii_db (py "  summary of results ")
       (Some 20%float) true (Some 0.05%float)
       (Some 200%float) (Some 212%float) (Some 612%float) = Ok false.
Proof.
  assert (H : entirely_lowercase ascii_db
                (strip ascii_db (py "  summary of results "))).
  { apply entirely_lowercase_test. vm_compute. reflexivity. }
  split; [exact H|].
  exact (C5_lowercase_rejected ascii_db (py "  summary of results ")
           (Some 20%float) true (Some 0.05%float)
           (Some 200%float) (Some 212%float) (Some 612%float) H).
Defined.

(** C9: the scoring term for uppercase text longer than 2 characters is
    never added: on every input [is_heading] returns what the variant
    without that term returns, because a text that satisfies the condition
    is accepted by the same condition before the score is computed. *)
Theorem C9_uppercase_boost_unreachable (U : UnicodeDB) (line : str)
    (font_size : option float) (is_bold : bool)
    (y_pos x_pos width page_width : option float) :
  is_heading U line font_size is_bold y_pos x_pos width page_width
  = is_heading_without_uppercase_boost U line font_size is_bold
      y_pos x_pos width page_width.
Proof.
  unfold is_heading, is_heading_without_uppercase_boost. cbv zeta.
  repeat match goal with
         | |- (if ?c then _ else _) = _ => destruct c eqn:?; [reflexivity|]
         end.
  reflexivity.
Qed.

(** ** The title *)

Lemma star_run_S body fuel st :
  star_run body (S fuel) st
  = flat_map (fun st' =>
                if fst st <? fst st' then star_run body fuel st' else [])
             (body st) ++ [st].
Proof. reflexivity. Qed.

(** The greedy star of a set takes the longest run first. *)
Lemma star_set_greedy (p : char -> bool) : forall s fuel n,
  List.length s <= fuel ->
  exists m others,
    star_run (run (RSet p)) fuel (n, s) = (m, drop_while p s) :: others.
Proof.
  induction s as [|c s IH]; intros fuel n Hlen.
  - destruct fuel; simpl; eauto.
  - destruct fuel as [|fuel]; [simpl in Hlen; lia|].
    simpl in Hlen. rewrite star_run_S.
    change (run (RSet p) (n, c :: s))
      with (if p c then [(S n, s)] else []).
    cbn [drop_while]. destruct (p c) eqn:E.
    + destruct (IH fuel (S n)) as (m & others & Hrun); [lia|].
      assert (Hlt : (n <? S n) = true) by (apply Nat.ltb_lt; lia).
      cbn [flat_map fst]. rewrite Hlt, Hrun. simpl. eauto.
    + simpl. eauto.
Qed.

Section Title.
Context (U : UnicodeDB) (W : World).

(** Removing the match of the pattern is dropping the leading run. *)
Lemma re_sub_title_prefix s :
  re_sub_anchored (re_title_prefix U) s = strip_title_prefix U s.
Proof.
  unfold re_sub_anchored, re_title_prefix, strip_title_prefix, RPlus.
  destruct s as [|c s]; [reflexivity|].
  set (p := title_prefix_char U).
  change (run (RCat RBegin (RCat (RSet p) (RStar (RSet p)))) (0, c :: s))
    with (flat_map (run (RStar (RSet p))) (if p c then [(1, s)] else [])
          ++ []).
  cbn [drop_while]. destruct (p c) eqn:E; [|reflexivity].
  cbn [flat_map].
  change (run (RStar (RSet p)) (1, s))
    with (star_run (run (RSet p)) (List.length s) (1, s)).
  destruct (star_set_greedy p s (List.length s) 1)
    as (m & others & Hrun); [lia|].
  rewrite Hrun. reflexivity.
Qed.

Lemma title_prefix_char_space c :
  title_prefix_char U c = false -> uspace U c = false.
Proof.
  unfold title_prefix_char. intros H.
  apply orb_false_iff in H as [H _]. apply orb_false_iff in H as [H _].
  now apply orb_false_iff in H as [_ H].
Qed.

(** What is left of a stripped line needs no further stripping. *)
Lemma strip_title_prefix_stripped line :
  strip U (strip_title_prefix U (strip U line))
  = strip_title_prefix U (strip U line).
Proof.
  unfold strip_title_prefix.
  destruct (drop_while_suffix (title_prefix_char U) (strip U line))
    as [before Hsplit].
  assert (Hr : rstrip U (drop_while (title_prefix_char U) (strip U line))
               = drop_while (title_prefix_char U) (strip U line)).
  { apply rstrip_suffix with before. rewrite <- Hsplit.
    apply strip_no_trailing_space. }
  unfold strip at 1.
  destruct (drop_while (title_prefix_char U) (strip U line)) as [|c rest] eqn:E.
  - reflexivity.
  - apply drop_while_head in E as Hc.
    rewrite (proj2 (lstrip_fixed U c rest) (title_prefix_char_space c Hc)).
    exact Hr.
Qed.

(** The loop returns the remainder of the first line that qualifies. *)
Lemma scan_title_lines_find lines :
  scan_title_lines U lines
  = option_map (strip_title_prefix U)
      (find (qualifies U) (map (strip U) lines)).
Proof.
  induction lines as [|line rest IH]; simpl; [reflexivity|].
  rewrite re_sub_title_prefix, strip_title_prefix_stripped.
  unfold qualifies at 1.
  destruct (3 <? List.length (strip U line)) eqn:E3.
  - assert (Hne : is_empty (strip U line) = false).
    { destruct (strip U line); [discriminate E3 | reflexivity]. }
    rewrite Hne. simpl.
    destruct (List.length (strip U line) <? 200); simpl; [|exact IH].
    destruct (is_empty (strip_title_prefix U (strip U line))); simpl;
      [exact IH | reflexivity].
  - rewrite andb_false_r. simpl. exact IH.
Qed.

(** [extract_title_from_pdf] always returns, and what it returns is the
    title of the specification. *)
Lemma extract_title_result pdf_path :
  result (extract_title_from_pdf U W pdf_path) = Ok (title_spec U W pdf_path).
Proof.
  unfold extract_title_from_pdf, title_from_first_page, title_spec,
    first_page_text.
  destruct (fitz_open W pdf_path) as [doc|e]; [|reflexivity].
  cbn -[firstn split_on].
  destruct (doc_pages doc) as [|first_page others].
  - cbn. destruct (doc_close doc); reflexivity.
  - destruct (page_text first_page) as [text|e]; [|reflexivity].
    cbn -[firstn split_on].
    destruct (is_empty text) eqn:Et.
    + destruct text; [|discriminate Et].
      destruct (doc_close doc); reflexivity.
    + rewrite scan_title_lines_find.
      destruct (find (qualifies U)
                  (map (strip U) (firstn 5 (split_on newline text))));
        [reflexivity|].
      cbn. destruct (doc_close doc); reflexivity.
Qed.

Lemma extract_title_total pdf_path :
  exists log,
    extract_title_from_pdf U W pdf_path = (log, Ok (title_spec U W pdf_path)).
Proof.
  pose proof (extract_title_result pdf_path) as H.
  destruct (extract_title_from_pdf U W pdf_path) as [log r].
  simpl in H. subst r. now exists log.
Qed.

End Title.

Lemma split_on_from_line sep line : forall rest field,
  ~ In sep line ->
  split_on_from sep (line ++ rest) field
  = split_on_from sep rest (field ++ line).
Proof.
  induction line as [|c line IH]; intros rest field H; simpl.
  - now rewrite app_nil_r.
  - assert (Hc : N.eqb c sep = false).
    { apply N.eqb_neq. intros ->. apply H. now left. }
    rewrite Hc, IH by (intros Hin; apply H; now right).
    now rewrite <- app_assoc.
Qed.

(** Splitting at the newlines gives back the lines that were joined. *)
Lemma split_on_join_lines others : forall first,
  Forall newline_free (first :: others) ->
  split_on newline (join_lines first others) = first :: others.
Proof.
  unfold split_on.
  induction others as [|line lines IH]; intros first H; simpl.
  - inversion H; subst.
    rewrite <- (app_nil_r first) at 1.
    now rewrite split_on_from_line.
  - inversion H; subst.
    rewrite split_on_from_line by assumption. simpl.
    now rewrite IH.
Qed.

(** Every text is made of lines without newlines. *)
Lemma lines_of_text text :
  exists first others,
    text = join_lines first others
    /\ Forall newline_free (first :: others).
Proof.
  assert (H : forall s field,
             newline_free field ->
             exists first others,
               field ++ s = join_lines first others
               /\ Forall newline_free (first :: others)).
  { induction s as [|c s IH]; intros field Hf.
    - exists field, []. rewrite app_nil_r. split; [reflexivity|].
      now repeat constructor.
    - destruct (N.eqb c newline) eqn:E.
      + apply N.eqb_eq in E. subst c.
        destruct (IH [] (fun H => H)) as (first & others & Hs & Hall).
        exists field, (first :: others). simpl in *. rewrite Hs.
        split; [reflexivity|]. now constructor.
      + apply N.eqb_neq in E.
        destruct (IH (field ++ [c])) as (first & others & Hs & Hall).
        * intros Hin. apply in_app_or in Hin as [Hin|[Hin|[]]];
            [now apply Hf | now apply E].
        * exists first, others. rewrite <- app_assoc in Hs.
          split; assumption. }
  apply (H text []). intros [].
Qed.

Lemma underscores_to_spaces_replace s :
  replace_char (ch "_") (ch " ") s = underscores_to_spaces s.
Proof.
  unfold replace_char. induction s as [|c s IH]; [reflexivity|].
  cbn [map underscores_to_spaces]. rewrite IH. reflexivity.
Qed.

(** C8: when the text of page 1 is read, it is made of lines joined by
    newlines, and [extract_title_from_pdf] returns, of its first 5
    lines, each stripped, the first one that is longer than 3 and shorter
    than 200 characters and is not empty once its leading run of digits,
    white space, periods and hyphens is removed, without that run; when
    no such line is among the first 5, or when the document, its first
    page or its text cannot be read, it returns the stem of the file
    name, its underscores replaced by spaces, in title case. *)
Theorem C8_title (U : UnicodeDB) (W : World) (pdf_path : str) :
  (forall text first others,
      first_page_text W pdf_path = Some text ->
      text = join_lines first others ->
      Forall newline_free (first :: others) ->
      result (extract_title_from_pdf U W pdf_path)
      = Ok match find (qualifies U)
                   (map (strip U) (firstn 5 (first :: others))) with
           | Some line => strip_title_prefix U line
           | None =>
               str_title U (underscores_to_spaces (path_stem W pdf_path))
           end)
  /\ (first_page_text W pdf_path = None ->
      result (extract_title_from_pdf U W pdf_path)
      = Ok (str_title U (underscores_to_spaces (path_stem W pdf_path)))).
Proof.
  split.
  - intros text first others Htext Hjoin Hlines.
    rewrite extract_title_result. unfold title_spec, filename_title.
    rewrite Htext, Hjoin, (split_on_join_lines others first Hlines).
    now rewrite underscores_to_spaces_replace.
  - intros Hnone.
    rewrite extract_title_result. unfold title_spec, filename_title.
    now rewrite Hnone, underscores_to_spaces_replace.
Qed.

Lemma C8_title_witness :
  result (extract_title_from_pdf ascii_db demo_world
            (py "input/annual_report.pdf"))
  = Ok (py "Acme Corp Annual Report")
  /\ result (extract_title_from_pdf ascii_db demo_world
               (py "input/my_first_file.pdf"))
     = Ok (py "My First File").
Proof.
  split.
  - apply (proj1 (C8_title ascii_db demo_world (py "input/annual_report.pdf"))
             (py "2024" ++ [newline] ++ py "Acme Corp Annual Report"
              ++ [newline] ++ py "this report is about the year.")
             (py "2024")
             [py "Acme Corp Annual Report";
              py "this report is about the year."]).
    + reflexivity.
    + reflexivity.
    + repeat constructor; vm_compute; intuition discriminate.
  - apply (proj2 (C8_title ascii_db demo_world (py "input/my_first_file.pdf"))).
    reflexivity.
Defined.

(** ** Order-keeping selections *)

Lemma Subseq_nil {A} (l : list A) : Subseq [] l.
Proof.
  induction l; [apply SubseqNil | apply SubseqSkip; assumption].
Qed.

Lemma Subseq_refl {A} (l : list A) : Subseq l l.
Proof.
  induction l; [apply SubseqNil | apply SubseqTake; assumption].
Qed.

Lemma Subseq_app {A} (s1 b1 s2 b2 : list A) :
  Subseq s1 b1 -> Subseq s2 b2 -> Subseq (s1 ++ s2) (b1 ++ b2).
Proof.
  induction 1; intros H2; simpl.
  - assumption.
  - apply SubseqSkip. auto.
  - apply SubseqTake. auto.
Qed.

Lemma Subseq_In {A} (s b : list A) x : Subseq s b -> In x s -> In x b.
Proof.
  induction 1; simpl; intros Hin; auto.
  destruct Hin; auto.
Qed.

Lemma Subseq_map {A B} (f : A -> B) s b :
  Subseq s b -> Subseq (map f s) (map f b).
Proof.
  induction 1; simpl.
  - apply SubseqNil.
  - apply SubseqSkip. assumption.
  - apply SubseqTake. assumption.
Qed.

Lemma Subseq_sorted {A} (R : A -> A -> Prop) s b :
  Subseq s b -> StronglySorted R b -> StronglySorted R s.
Proof.
  induction 1; intros Hb.
  - constructor.
  - inversion Hb; subst. auto.
  - inversion Hb as [|? ? Hs Hall]; subst. constructor; [auto|].
    rewrite Forall_forall in *. intros y Hy. apply Hall.
    eapply Subseq_In; eauto.
Qed.

Lemma StronglySorted_app {A} (R : A -> A -> Prop) l1 l2 :
  StronglySorted R l1 -> StronglySorted R l2 ->
  (forall x y, In x l1 -> In y l2 -> R x y) ->
  StronglySorted R (l1 ++ l2).
Proof.
  induction 1 as [|x l1 Hs IH Hall]; intros H2 Hcross; simpl; [assumption|].
  constructor.
  - apply IH; [assumption|]. intros; apply Hcross; simpl; auto.
  - apply Forall_app. split; [assumption|].
    apply Forall_forall. intros y Hy. apply Hcross; simpl; auto.
Qed.

(** ** Loops that gather *)

Lemma for_each_gather {A B} (body : list B -> A -> Except (list B))
    (f : A -> Except (list B)) :
  (forall s a, body s a = bindE (f a) (fun new => Ok (s ++ new))) ->
  forall l s,
    for_each body l s = bindE (gather f l) (fun new => Ok (s ++ new)).
Proof.
  intros Hbody. induction l as [|a l IH]; intros s; simpl.
  - now rewrite app_nil_r.
  - rewrite Hbody. destruct (f a) as [x|e]; simpl; [|reflexivity].
    rewrite IH. destruct (gather f l) as [y|e]; simpl; [|reflexivity].
    now rewrite app_assoc.
Qed.

Lemma gather_Subseq {A B} (f : A -> Except (list B)) (g : A -> list B) :
  (forall a x, f a = Ok x -> Subseq x (g a)) ->
  forall l out, gather f l = Ok out -> Subseq out (flat_map g l).
Proof.
  intros Hf. induction l as [|a l IH]; intros out H; simpl in *.
  - inversion H; subst. apply SubseqNil.
  - destruct (f a) as [x|e] eqn:Ea; simpl in H; [|discriminate].
    destruct (gather f l) as [y|e]; simpl in H; [|discriminate].
    inversion H; subst. apply Subseq_app; auto.
Qed.

Lemma gather_nothing {A B} (f : A -> Except (list B)) l :
  (forall a, In a l -> f a = Ok []) -> gather f l = Ok [].
Proof.
  induction l as [|a l IH]; intros H; simpl; [reflexivity|].
  rewrite (H a) by now left. simpl.
  rewrite IH by (intros; apply H; now right). reflexivity.
Qed.

(** ** The candidates of a document *)

Section Extraction.
Context (U : UnicodeDB) (W : World).

Lemma visit_line_candidates page_num page headings line :
  visit_line U page_num page (rect_width page) headings line
  = bindE (line_candidates U page_num page line)
      (fun new => Ok (headings ++ new)).
Proof.
  unfold visit_line, line_candidates, line_accepted, line_heading.
  cbv zeta.
  destruct (is_empty (strip U (List.concat (map span_text (line_spans line))))).
  - simpl. now rewrite app_nil_r.
  - destruct (line_spans line) as [|first others].
    + cbn [bindE].
      destruct (is_heading U _ _ _ _ _ _ _) as [[|]|e]; simpl;
        try rewrite app_nil_r; reflexivity.
    + destruct (fdiv (snd (span_origin first)) (rect_height page));
        cbn [bindE]; [|reflexivity].
      destruct (is_heading U _ _ _ _ _ _ _) as [[|]|e]; simpl;
        try rewrite app_nil_r; reflexivity.
Qed.

Lemma visit_block_candidates page_num page headings block :
  visit_block U page_num page (rect_width page) headings block
  = bindE (block_candidates U page_num page block)
      (fun new => Ok (headings ++ new)).
Proof.
  unfold visit_block, block_candidates, block_line_list.
  destruct (block_lines block) as [lines|].
  - apply for_each_gather. intros. apply visit_line_candidates.
  - simpl. now rewrite app_nil_r.
Qed.

Lemma visit_page_candidates headings numbered :
  visit_page U headings numbered
  = bindE (page_candidates U numbered) (fun new => Ok (headings ++ new)).
Proof.
  destruct numbered as [page_num page].
  unfold visit_page, page_candidates. simpl.
  apply for_each_gather. intros. apply visit_block_candidates.
Qed.

(** The loops gather the candidates of the document. *)
Lemma extract_headings_candidates pdf_path :
  extract_headings_from_pdf U W pdf_path
  = bindE (fitz_open W pdf_path) (document_candidates U).
Proof.
  unfold extract_headings_from_pdf, document_candidates.
  destruct (fitz_open W pdf_path) as [doc|e]; simpl; [|reflexivity].
  rewrite (for_each_gather (visit_page U) (page_candidates U))
    by (intros; apply visit_page_candidates).
  destruct (gather _ _); reflexivity.
Qed.

Lemma flat_map_singleton {A B} (f : A -> B) l :
  flat_map (fun a => [f a]) l = map f l.
Proof. induction l; simpl; congruence. Qed.

(** The candidates are lines of the document, in reading order. *)
Lemma page_candidates_Subseq numbered out :
  page_candidates U numbered = Ok out ->
  Subseq out (page_headings U numbered).
Proof.
  unfold page_candidates, page_headings.
  apply gather_Subseq. intros block x Hx.
  unfold block_candidates in Hx.
  rewrite <- flat_map_singleton.
  revert Hx. apply gather_Subseq. intros line y Hy.
  unfold line_candidates in Hy.
  destruct (line_accepted U (snd numbered) line) as [[|]|e];
    simpl in Hy; inversion Hy; subst.
  - apply Subseq_refl.
  - apply Subseq_nil.
Qed.

Lemma document_candidates_Subseq doc out :
  document_candidates U doc = Ok out -> Subseq out (reading_order U doc).
Proof.
  unfold document_candidates, reading_order.
  apply gather_Subseq. apply page_candidates_Subseq.
Qed.

Lemma page_headings_page numbered h :
  In h (page_headings U numbered) -> h_page h = fst numbered.
Proof.
  unfold page_headings. intros H.
  apply in_flat_map in H as (block & _ & H).
  apply in_map_iff in H as (line & <- & _). reflexivity.
Qed.

(** In reading order the page numbers never decrease. *)
Lemma numbered_pages_sorted pages : forall start,
  StronglySorted le
    (map h_page (flat_map (page_headings U) (enumerate start pages)))
  /\ Forall (fun h => start <= h_page h)
       (flat_map (page_headings U) (enumerate start pages)).
Proof.
  unfold enumerate.
  induction pages as [|p pages IH]; intros start; simpl.
  - split; constructor.
  - destruct (IH (S start)) as [Hsorted Hlow].
    rewrite Forall_forall in Hlow.
    assert (Hhere : forall h, In h (page_headings U (start, p)) ->
                              h_page h = start).
    { intros h Hh. now apply page_headings_page in Hh. }
    split.
    + rewrite map_app. apply StronglySorted_app; [|assumption|].
      * induction (page_headings U (start, p)) as [|h hs IHh]; simpl;
          constructor.
        -- apply IHh. intros; apply Hhere; now right.
        -- apply Forall_forall. intros k Hk.
           apply in_map_iff in Hk as (h' & <- & Hh').
           rewrite (Hhere h) by now left.
           rewrite (Hhere h') by now right. lia.
      * intros x y Hx Hy.
        apply in_map_iff in Hx as (hx & <- & Hx).
        apply in_map_iff in Hy as (hy & <- & Hy).
        rewrite (Hhere hx Hx). specialize (Hlow hy Hy). lia.
    + apply Forall_app. split; apply Forall_forall; intros h Hh.
      * rewrite (Hhere h Hh). lia.
      * specialize (Hlow h Hh). lia.
Qed.

Lemma reading_order_sorted doc :
  StronglySorted le (map h_page (reading_order U doc)).
Proof. apply numbered_pages_sorted. Qed.

(** *** What [process_pdf] returns *)

Lemma process_pdf_result pdf_path model_path :
  result (process_pdf U W pdf_path model_path)
  = match extract_headings_from_pdf U W pdf_path with
    | Raise e => Raise e
    | Ok headings =>
        if is_empty headings
        then Ok {| title := title_spec U W pdf_path; outline := [] |}
        else
          match joblib_load W model_path with
          | Raise e => Raise e
          | Ok model =>
              match predict model (map h_text headings) with
              | Raise e => Raise e
              | Ok levels =>
                  Ok {| title := title_spec U W pdf_path;
                        outline :=
                          map make_entry (combine headings levels) |}
              end
          end
    end.
Proof.
  unfold process_pdf.
  destruct (extract_title_total U W pdf_path) as [log ->].
  destruct (extract_headings_from_pdf U W pdf_path) as [headings|e];
    [|reflexivity].
  cbn. destruct (is_empty headings); [reflexivity|].
  cbn. destruct (joblib_load W model_path) as [model|e]; [|reflexivity].
  cbn. destruct (predict model (map h_text headings)); reflexivity.
Qed.

Lemma extract_title_prints pdf_path ev :
  In ev (trace (extract_title_from_pdf U W pdf_path)) ->
  classifier_event ev = false.
Proof.
  unfold extract_title_from_pdf.
  destruct (title_from_first_page U W pdf_path) as [[t|]|e]; simpl;
    try contradiction.
  intros [<-|[]]. reflexivity.
Qed.

Lemma entries_of_headings headings : forall levels,
  List.length levels = List.length headings ->
  map entry_heading (map make_entry (combine headings levels)) = headings.
Proof.
  induction headings as [|[t p] hs IH]; intros [|l ls] H; simpl in *;
    try discriminate; [reflexivity|].
  unfold entry_heading at 1. simpl. f_equal. apply IH. lia.
Qed.

Lemma entry_pages o : map page o = map h_page (map entry_heading o).
Proof. rewrite map_map. reflexivity. Qed.

Lemma entries_nth headings : forall levels i h,
  List.length levels = List.length headings ->
  nth_error headings i = Some h ->
  exists l,
    nth_error levels i = Some l
    /\ nth_error (map make_entry (combine headings levels)) i
       = Some {| level := l; text := h_text h; page := h_page h |}.
Proof.
  induction headings as [|h0 hs IH]; intros [|l ls] i h Hlen Hi;
    destruct i; simpl in *; try discriminate.
  - inversion Hi; subst. eauto.
  - apply IH; [lia | assumption].
Qed.

End Extraction.

Section Outline.
Context (U : UnicodeDB) (W : World).

Lemma no_line_accepted_no_candidates doc :
  (forall page line,
      In page (doc_pages doc) -> In line (page_lines page) ->
      line_accepted U page line = Ok false) ->
  document_candidates U doc = Ok [].
Proof.
  intros H. unfold document_candidates.
  apply gather_nothing. intros [page_num page] Hpage.
  apply in_combine_r in Hpage.
  unfold page_candidates. simpl.
  apply gather_nothing. intros block Hblock.
  unfold block_candidates.
  apply gather_nothing. intros line Hline.
  unfold line_candidates.
  rewrite (H page line Hpage); [reflexivity|].
  unfold page_lines. apply in_flat_map. eauto.
Qed.

Lemma process_pdf_trace_no_headings pdf_path model_path :
  extract_headings_from_pdf U W pdf_path = Ok [] ->
  trace (process_pdf U W pdf_path model_path)
  = trace (extract_title_from_pdf U W pdf_path)
    ++ [EvPrint (py "No headings detected in " ++ pdf_path ++ py ".")].
Proof.
  intros H. unfold process_pdf. rewrite H.
  destruct (extract_title_total U W pdf_path) as [log ->].
  reflexivity.
Qed.

Lemma combine_shorter {A B} (l : list A) : forall (l' : list B),
  combine l l' = combine (firstn (List.length l') l) l'.
Proof.
  induction l as [|a l IH]; intros [|b l']; simpl; try reflexivity.
  now rewrite <- IH.
Qed.

End Outline.

(** ** The claims on [process_pdf] *)

(** C2: when the document is read without error, [hs] being its accepted
    candidates, and the classifier, given the texts of [hs], returns as
    many labels, [process_pdf] returns an outline with one entry for each
    candidate: entry [i] has the text and the page of candidate [i] and
    label [i]; the pages of the entries never decrease, and the entries
    are lines of the document in reading order. *)
Theorem C2_outline_follows_candidates (U : UnicodeDB) (W : World)
    (pdf_path model_path : str) (doc : Document) (hs : list Heading)
    (model : Model) (levels : list str) :
  fitz_open W pdf_path = Ok doc ->
  extract_headings_from_pdf U W pdf_path = Ok hs ->
  joblib_load W model_path = Ok model ->
  predict model (map h_text hs) = Ok levels ->
  List.length levels = List.length hs ->
  exists t o,
    result (extract_title_from_pdf U W pdf_path) = Ok t
    /\ result (process_pdf U W pdf_path model_path)
       = Ok {| title := t; outline := o |}
    /\ List.length o = List.length hs
    /\ (forall i h,
           nth_error hs i = Some h ->
           exists l,
             nth_error levels i = Some l
             /\ nth_error o i
                = Some {| level := l; text := h_text h; page := h_page h |})
    /\ StronglySorted le (map page o)
    /\ Subseq (map entry_heading o) (reading_order U doc).
Proof.
  intros Hopen Hhs Hload Hpredict Hlen.
  assert (Hsub : Subseq hs (reading_order U doc)).
  { rewrite extract_headings_candidates, Hopen in Hhs. simpl in Hhs.
    now apply document_candidates_Subseq. }
  assert (Hentries :
            map entry_heading (map make_entry (combine hs levels)) = hs)
    by now apply entries_of_headings.
  exists (title_spec U W pdf_path), (map make_entry (combine hs levels)).
  split; [apply extract_title_result|].
  split.
  { rewrite process_pdf_result, Hhs, Hload, Hpredict.
    destruct hs; [|reflexivity].
    destruct levels; [reflexivity | discriminate]. }
  split.
  { rewrite length_map, length_combine. lia. }
  split.
  { intros i h Hi. now apply entries_nth. }
  split.
  { rewrite entry_pages, Hentries.
    apply Subseq_sorted with (map h_page (reading_order U doc)).
    - now apply Subseq_map.
    - apply reading_order_sorted. }
  now rewrite Hentries.
Qed.

Lemma C2_outline_follows_candidates_witness :
  exists t o,
    result (extract_title_from_pdf ascii_db demo_world
              (py "input/annual_report.pdf")) = Ok t
    /\ result (process_pdf ascii_db demo_world
                 (py "input/annual_report.pdf") (py "levels.joblib"))
       = Ok {| title := t; outline := o |}
    /\ List.length o = List.length report_headings
    /\ (forall i h,
           nth_error report_headings i = Some h ->
           exists l,
             nth_error [py "H1"; py "H2"] i = Some l
             /\ nth_error o i
                = Some {| level := l; text := h_text h; page := h_page h |})
    /\ StronglySorted le (map page o)
    /\ Subseq (map entry_heading o) (reading_order ascii_db report_doc).
Proof.
  apply (C2_outline_follows_candidates ascii_db demo_world
           (py "input/annual_report.pdf") (py "levels.joblib")
           report_doc report_headings level_model [py "H1"; py "H2"]).
  - vm_compute. reflexivity.
  - vm_compute. reflexivity.
  - vm_compute. reflexivity.
  - vm_compute. reflexivity.
  - reflexivity.
Defined.

(** C6: when the document opens and the filter answers false for every
    line of it, [process_pdf] returns the title of [extract_title_from_pdf]
    with the empty outline, and its events are prints only: the
    classifier is neither loaded nor asked. *)
Theorem C6_no_candidate_empty_outline (U : UnicodeDB) (W : World)
    (pdf_path model_path : str) (doc : Document) :
  fitz_open W pdf_path = Ok doc ->
  (forall page line,
      In page (doc_pages doc) -> In line (page_lines page) ->
      line_accepted U page line = Ok false) ->
  exists t,
    result (extract_title_from_pdf U W pdf_path) = Ok t
    /\ result (process_pdf U W pdf_path model_path)
       = Ok {| title := t; outline := [] |}
    /\ forall ev,
         In ev (trace (process_pdf U W pdf_path model_path)) ->
         classifier_event ev = false.
Proof.
  intros Hopen Hnone.
  assert (Hhs : extract_headings_from_pdf U W pdf_path = Ok []).
  { rewrite extract_headings_candidates, Hopen. simpl.
    now apply no_line_accepted_no_candidates. }
  exists (title_spec U W pdf_path).
  split; [apply extract_title_result|].
  split.
  - now rewrite process_pdf_result, Hhs.
  - intros ev Hev. rewrite process_pdf_trace_no_headings in Hev by assumption.
    apply in_app_or in Hev as [Hev|[<-|[]]].
    + now apply extract_title_prints in Hev.
    + reflexivity.
Qed.

Lemma C6_no_candidate_empty_outline_witness :
  exists t,
    result (extract_title_from_pdf ascii_db demo_world (py "input/notes.pdf"))
    = Ok t
    /\ result (process_pdf ascii_db demo_world (py "input/notes.pdf")
                 (py "levels.joblib"))
       = Ok {| title := t; outline := [] |}
    /\ forall ev,
         In ev (trace (process_pdf ascii_db demo_world (py "input/notes.pdf")
                         (py "levels.joblib"))) ->
         classifier_event ev = false.
Proof.
  apply (C6_no_candidate_empty_outline ascii_db demo_world
           (py "input/notes.pdf") (py "levels.joblib") notes_doc).
  - vm_compute. reflexivity.
  - intros page line Hpage Hline.
    destruct Hpage as [<-|[]].
    destruct Hline as [<-|[]].
    vm_compute. reflexivity.
Defined.

(** C7: when the document has an accepted candidate and loading the
    classifier raises, or its [predict] raises, [process_pdf] raises the
    same error: it does not return an outline, empty or not. *)
Theorem C7_classifier_failure_propagates (U : UnicodeDB) (W : World)
    (pdf_path model_path : str) (hs : list Heading) (e : exn) :
  extract_headings_from_pdf U W pdf_path = Ok hs ->
  hs <> [] ->
  classifier_fails W model_path (map h_text hs) e ->
  result (process_pdf U W pdf_path model_path) = Raise e.
Proof.
  intros Hhs Hne Hfail.
  rewrite process_pdf_result, Hhs.
  destruct hs as [|h hs]; [congruence|]. cbn [is_empty].
  destruct Hfail as [Hload | (model & Hload & Hpredict)].
  - now rewrite Hload.
  - now rewrite Hload, Hpredict.
Qed.

Lemma C7_classifier_failure_propagates_witness :
  result (process_pdf ascii_db demo_world (py "input/annual_report.pdf")
            (py "broken.joblib"))
  = Raise (LibraryError (py "predict failed"))
  /\ result (process_pdf ascii_db demo_world (py "input/annual_report.pdf")
               (py "missing.joblib"))
     = Raise (LibraryError (py "no such model")).
Proof.
  split.
  - apply (C7_classifier_failure_propagates ascii_db demo_world
             (py "input/annual_report.pdf") (py "broken.joblib")
             report_headings).
    + vm_compute. reflexivity.
    + discriminate.
    + right. exists broken_model. split; reflexivity.
  - apply (C7_classifier_failure_propagates ascii_db demo_world
             (py "input/annual_report.pdf") (py "missing.joblib")
             report_headings).
    + vm_compute. reflexivity.
    + discriminate.
    + left. reflexivity.
Defined.

Lemma entries_of_labels (hs : list Heading) : forall levels i l,
  nth_error levels i = Some l ->
  List.length levels <= List.length hs ->
  exists h,
    nth_error hs i = Some h
    /\ nth_error (map make_entry (combine hs levels)) i
       = Some {| level := l; text := h_text h; page := h_page h |}.
Proof.
  induction hs as [|h0 hs IH]; intros [|l0 ls] i l Hi Hlen;
    destruct i; simpl in *; try discriminate; try lia.
  - inversion Hi; subst. eauto.
  - apply IH; [assumption | lia].
Qed.

(** C10: when the classifier returns fewer labels than there are
    candidates, [process_pdf] raises nothing: it returns an outline of as
    many entries as there are labels, entry [i] having label [i] and the
    text and the page of candidate [i]; the candidates after the last
    label have no entry. *)
Theorem C10_short_label_list_truncates (U : UnicodeDB) (W : World)
    (pdf_path model_path : str) (hs : list Heading) (model : Model)
    (levels : list str) :
  extract_headings_from_pdf U W pdf_path = Ok hs ->
  joblib_load W model_path = Ok model ->
  predict model (map h_text hs) = Ok levels ->
  List.length levels < List.length hs ->
  exists t o,
    result (extract_title_from_pdf U W pdf_path) = Ok t
    /\ result (process_pdf U W pdf_path model_path)
       = Ok {| title := t; outline := o |}
    /\ List.length o = List.length levels
    /\ (forall i l,
           nth_error levels i = Some l ->
           exists h,
             nth_error hs i = Some h
             /\ nth_error o i
                = Some {| level := l; text := h_text h; page := h_page h |})
    /\ map entry_heading o = firstn (List.length levels) hs
    /\ map level o = levels.
Proof.
  intros Hhs Hload Hpredict Hlen.
  exists (title_spec U W pdf_path), (map make_entry (combine hs levels)).
  split; [apply extract_title_result|].
  split.
  { rewrite process_pdf_result, Hhs, Hload, Hpredict.
    destruct hs; [simpl in Hlen; lia | reflexivity]. }
  split.
  { rewrite length_map, length_combine. lia. }
  split.
  { intros i l Hi. apply entries_of_labels; [assumption | lia]. }
  clear Hhs Hpredict. revert levels Hlen.
  induction hs as [|[t p] hs IH]; intros [|l ls] Hlen; simpl in *;
    try lia; try (split; reflexivity).
  destruct (IH ls) as [H1 H2]; [lia|].
  unfold entry_heading at 1. simpl. split; f_equal; assumption.
Qed.

Lemma C10_short_label_list_truncates_witness :
  exists t o,
    result (extract_title_from_pdf ascii_db demo_world
              (py "input/annual_report.pdf")) = Ok t
    /\ result (process_pdf ascii_db demo_world
                 (py "input/annual_report.pdf") (py "short.joblib"))
       = Ok {| title := t; outline := o |}
    /\ List.length o = List.length [py "H1"]
    /\ (forall i l,
           nth_error [py "H1"] i = Some l ->
           exists h,
             nth_error report_headings i = Some h
             /\ nth_error o i
                = Some {| level := l; text := h_text h; page := h_page h |})
    /\ map entry_heading o = firstn (List.length [py "H1"]) report_headings
    /\ map level o = [py "H1"].
Proof.
  apply (C10_short_label_list_truncates ascii_db demo_world
           (py "input/annual_report.pdf") (py "short.joblib")
           report_headings short_model [py "H1"]).
  - vm_compute. reflexivity.
  - vm_compute. reflexivity.
  - vm_compute. reflexivity.
  - simpl. lia.
Defined.

(** ** Runs of the scenarios of the specification *)

(** Scenario C: a sentence with a linking verb is rejected. *)
Example scenario_linking_verb (U : UnicodeDB) :
  is_heading U (py "The system is designed to improve performance.")
    (Some 14%float) true (Some 0.1%float) None None None = Ok false.
Proof.
  rewrite is_heading_ascii
    by (apply py_is_ascii_test; vm_compute; reflexivity).
  vm_compute. reflexivity.
Qed.

(** Scenario D: an uppercase word is accepted without style. *)
Example scenario_uppercase (U : UnicodeDB) :
  is_heading U (py "RESULTS") None false None None None None = Ok true.
Proof.
  rewrite is_heading_ascii
    by (apply py_is_ascii_test; vm_compute; reflexivity).
  vm_compute. reflexivity.
Qed.

(** A page of width zero makes the centering test of the score raise. *)
Example score_zero_page_width (U : UnicodeDB) :
  is_heading U (py "Scope of work") None false None
    (Some 72%float) (Some 100%float) (Some 0%float)
  = Raise ZeroDivisionError.
Proof.
  rewrite is_heading_ascii
    by (apply py_is_ascii_test; vm_compute; reflexivity).
  vm_compute. reflexivity.
Qed.

(** Scenario E: the first line, "2024", is empty once its digits are
    removed, and the second line is the title. *)
Example scenario_title :
  result (extract_title_from_pdf ascii_db demo_world
            (py "input/annual_report.pdf"))
  = Ok (py "Acme Corp Annual Report").
Proof. vm_compute. reflexivity. Qed.

(** The title of a document whose first page cannot be read is made of
    its file name. *)
Example scenario_title_fallback :
  result (extract_title_from_pdf ascii_db demo_world (py "input/notes.pdf"))
  = Ok (py "Notes").
Proof. vm_compute. reflexivity. Qed.

(** Scenario F: two candidates and the labels "H1" and "H2". *)
Example scenario_outline :
  result (process_pdf ascii_db demo_world (py "input/annual_report.pdf")
            (py "levels.joblib"))
  = Ok {| title := py "Acme Corp Annual Report";
          outline :=
            [ {| level := py "H1"; text := py "Introduction"; page := 1 |};
              {| level := py "H2"; text := py "1.1 Background"; page := 2 |} ]
       |}.
Proof. vm_compute. reflexivity. Qed.


(** * Further properties of the code *)

(** ** [is_heading]: white space around the text *)

Section Padding.
Context (U : UnicodeDB).

Lemma lstrip_blank_app ws s : blank U ws -> lstrip U (ws ++ s) = lstrip U s.
Proof.
  induction ws as [|c ws IH]; intros H; simpl; [reflexivity|].
  rewrite (H c) by now left. apply IH. intros x Hx; apply H; now right.
Qed.

Lemma lstrip_blank ws : blank U ws -> lstrip U ws = [].
Proof.
  intros H. rewrite <- (app_nil_r ws). now rewrite lstrip_blank_app.
Qed.

Lemma blank_rev ws : blank U ws -> blank U (rev ws).
Proof. intros H c Hc. apply H. now apply in_rev. Qed.

Lemma rstrip_app_blank s ws : blank U ws -> rstrip U (s ++ ws) = rstrip U s.
Proof.
  intros H. unfold rstrip. rewrite rev_app_distr.
  now rewrite lstrip_blank_app by now apply blank_rev.
Qed.

Lemma strip_app_blank ws : blank U ws -> forall s,
  rstrip U (lstrip U (s ++ ws)) = rstrip U (lstrip U s).
Proof.
  intros H. induction s as [|c s IH]; simpl.
  - now rewrite lstrip_blank.
  - destruct (uspace U c); [assumption|].
    exact (rstrip_app_blank (c :: s) ws H).
Qed.

(** White space before and after a text does not change its stripped
    form. *)
Lemma strip_padding before s after :
  blank U before -> blank U after ->
  strip U (before ++ s ++ after) = strip U s.
Proof.
  intros Hb Ha. unfold strip.
  rewrite lstrip_blank_app by assumption.
  now apply strip_app_blank.
Qed.

Lemma strip_blank s : blank U s -> strip U s = [].
Proof. intros H. unfold strip. now rewrite lstrip_blank. Qed.

End Padding.

(** X1: a line of white space only, the empty line included, is not a
    heading, whatever the style arguments are. *)
Theorem blank_line_rejected (U : UnicodeDB) (line : str)
    (font_size : option float) (is_bold : bool)
    (y_pos x_pos width page_width : option float) :
  blank U line ->
  is_heading U line font_size is_bold y_pos x_pos width page_width = Ok false.
Proof.
  intros H. unfold is_heading. now rewrite strip_blank.
Qed.

Lemma blank_test U s : forallb (uspace U) s = true -> blank U s.
Proof. intros H c Hc. rewrite forallb_forall in H. now apply H. Qed.

Lemma blank_line_rejected_witness :
  blank ascii_db [ch " "; 9%N; newline]
  /\ is_heading ascii_db [ch " "; 9%N; newline]
       (Some 30%float) true (Some 0.1%float) None None None = Ok false.
Proof.
  assert (H : blank ascii_db [ch " "; 9%N; newline])
    by (apply blank_test; reflexivity).
  split; [exact H|].
  exact (blank_line_rejected ascii_db [ch " "; 9%N; newline]
           (Some 30%float) true (Some 0.1%float) None None None H).
Defined.

(** X2: white space before and after the text does not change the answer
    of [is_heading]. *)
Theorem padding_ignored (U : UnicodeDB) (before line after : str)
    (font_size : option float) (is_bold : bool)
    (y_pos x_pos width page_width : option float) :
  blank U before -> blank U after ->
  is_heading U (before ++ line ++ after) font_size is_bold
    y_pos x_pos width page_width
  = is_heading U line font_size is_bold y_pos x_pos width page_width.
Proof.
  intros Hb Ha. unfold is_heading. now rewrite strip_padding.
Qed.

Lemma padding_ignored_witness :
  blank ascii_db (py "  ") /\ blank ascii_db [9%N; newline]
  /\ is_heading ascii_db (py "  " ++ py "Scope of work" ++ [9%N; newline])
       (Some 14%float) false (Some 0.1%float) None None None
     = is_heading ascii_db (py "Scope of work")
         (Some 14%float) false (Some 0.1%float) None None None.
Proof.
  assert (Hb : blank ascii_db (py "  ")) by (apply blank_test; reflexivity).
  assert (Ha : blank ascii_db [9%N; newline])
    by (apply blank_test; reflexivity).
  split; [exact Hb|]. split; [exact Ha|].
  exact (padding_ignored ascii_db (py "  ") (py "Scope of work")
           [9%N; newline] (Some 14%float) false (Some 0.1%float)
           None None None Hb Ha).
Defined.


(** ** [is_heading]: the rules for punctuation and bullets *)

Section Marks.
Context (U : UnicodeDB).

Lemma sentence_mark_not_colon c :
  sentence_mark c = true -> N.eqb c (ch ":") = false.
Proof.
  unfold sentence_mark. intros H.
  repeat (apply orb_prop in H as [H|H]);
    apply N.eqb_eq in H; subst c; reflexivity.
Qed.

Lemma endswith_last s c x : endswith (s ++ [c]) x = N.eqb c x.
Proof. unfold endswith. now rewrite rev_app_distr. Qed.

Lemma re_end_punctuation_found before c :
  sentence_mark c = true ->
  re_search re_end_punctuation (before ++ [c]) = true.
Proof.
  intros H.
  apply re_search_Matches with (b := (S (List.length before), [])).
  unfold re_end_punctuation.
  eapply MCat; [|apply MEnd].
  apply MSet. exact H.
Qed.

Lemma re_bullet_found c rest :
  bullet_mark c = true -> re_match re_bullet (c :: rest) = true.
Proof.
  intros H. apply re_match_Matches with (b := (1, rest)).
  unfold re_bullet. eapply MCat; [apply MBegin|].
  apply MSet. exact H.
Qed.

Lemma not_empty_in {A} (l : list A) :
  negb (is_empty l) = true -> exists x, In x l.
Proof. destruct l as [|x l]; [discriminate|]. exists x. now left. Qed.

(** A match found by [search_from] starts at some offset. *)
Lemma search_from_sound r : forall s pos,
  search_from r pos s = true ->
  exists before rest b,
    s = before ++ rest
    /\ Matches r (pos + List.length before, rest) b.
Proof.
  induction s as [|c s IH]; intros pos H; simpl in H.
  - rewrite orb_false_r in H. apply not_empty_in in H as [b Hb].
    exists [], [], b. split; [reflexivity|].
    simpl. rewrite Nat.add_0_r. now apply run_sound.
  - apply orb_prop in H as [H|H].
    + apply not_empty_in in H as [b Hb].
      exists [], (c :: s), b. split; [reflexivity|].
      simpl. rewrite Nat.add_0_r. now apply run_sound.
    + destruct (IH (S pos) H) as (before & rest & b & -> & Hm).
      exists (c :: before), rest, b. split; [reflexivity|].
      simpl. now rewrite <- plus_n_Sm.
Qed.

Lemma rstrip_last_not_space s c :
  rstrip U (s ++ [c]) = s ++ [c] -> uspace U c = false.
Proof.
  intros H. apply rstrip_suffix in H.
  unfold rstrip in H. simpl in H.
  destruct (uspace U c); [discriminate H | reflexivity].
Qed.

(** On a stripped text the pattern for sentence marks matches only a
    text whose last character is a sentence mark. *)
Lemma re_end_punctuation_last line :
  re_search re_end_punctuation (strip U line) = true ->
  exists before c,
    strip U line = before ++ [c] /\ sentence_mark c = true.
Proof.
  intros H. apply search_from_sound in H as (before & rest & b & Hs & Hm).
  unfold re_end_punctuation in Hm.
  inversion Hm as [| |r1 r2 a m b' Hset Hend| | | | |]; subst.
  inversion Hset; subst. inversion Hend; subst.
  - exists before, c. split; assumption.
  - exfalso.
    pose proof (strip_no_trailing_space U line) as Hr.
    rewrite Hs in Hr.
    change (before ++ c :: [newline]) with (before ++ [c] ++ [newline]) in Hr.
    rewrite app_assoc in Hr.
    apply rstrip_last_not_space in Hr.
    rewrite uspace_ascii in Hr by (unfold is_ascii, newline; lia).
    discriminate Hr.
Qed.

End Marks.

(** X3: a line whose stripped text ends with one of the characters
    . ; , ! ? is not a heading, whatever the rest of the text and the
    style arguments are. *)
Theorem sentence_mark_rejected (U : UnicodeDB) (line before : str) (c : char)
    (font_size : option float) (is_bold : bool)
    (y_pos x_pos width page_width : option float) :
  strip U line = before ++ [c] ->
  sentence_mark c = true ->
  is_heading U line font_size is_bold y_pos x_pos width page_width = Ok false.
Proof.
  intros Hs Hc. apply is_heading_rejected.
  unfold rejected. rewrite Hs.
  rewrite (re_end_punctuation_found before c Hc).
  rewrite endswith_last, (sentence_mark_not_colon c Hc).
  now rewrite !orb_true_r.
Qed.

Lemma sentence_mark_rejected_witness :
  strip ascii_db (py "OVERVIEW OF RESULTS! ") = py "OVERVIEW OF RESULTS" ++ [ch "!"]
  /\ sentence_mark (ch "!") = true
  /\ is_heading ascii_db (py "OVERVIEW OF RESULTS! ")
       (Some 20%float) true (Some 0.1%float) None None None = Ok false.
Proof.
  assert (Hs : strip ascii_db (py "OVERVIEW OF RESULTS! ")
               = py "OVERVIEW OF RESULTS" ++ [ch "!"]) by reflexivity.
  assert (Hc : sentence_mark (ch "!") = true) by reflexivity.
  split; [exact Hs|]. split; [exact Hc|].
  exact (sentence_mark_rejected ascii_db (py "OVERVIEW OF RESULTS! ")
           (py "OVERVIEW OF RESULTS") (ch "!")
           (Some 20%float) true (Some 0.1%float) None None None Hs Hc).
Defined.

(** X4: a line whose stripped text starts with a bullet, a hyphen or a
    rightwards arrow is not a heading, whatever the style arguments
    are. *)
Theorem bullet_rejected (U : UnicodeDB) (line rest : str) (c : char)
    (font_size : option float) (is_bold : bool)
    (y_pos x_pos width page_width : option float) :
  strip U line = c :: rest ->
  bullet_mark c = true ->
  is_heading U line font_size is_bold y_pos x_pos width page_width = Ok false.
Proof.
  intros Hs Hc. apply is_heading_rejected.
  unfold rejected. rewrite Hs.
  rewrite (re_bullet_found c rest Hc).
  now rewrite !orb_true_r.
Qed.

Lemma bullet_rejected_witness :
  strip ascii_db (bullet :: py " Key Findings") = bullet :: py " Key Findings"
  /\ bullet_mark bullet = true
  /\ is_heading ascii_db (bullet :: py " Key Findings")
       (Some 20%float) true (Some 0.1%float) None None None = Ok false.
Proof.
  assert (Hs : strip ascii_db (bullet :: py " Key Findings")
               = bullet :: py " Key Findings") by reflexivity.
  assert (Hc : bullet_mark bullet = true) by reflexivity.
  split; [exact Hs|]. split; [exact Hc|].
  exact (bullet_rejected ascii_db (bullet :: py " Key Findings")
           (py " Key Findings") bullet
           (Some 20%float) true (Some 0.1%float) None None None Hs Hc).
Defined.

(** X5: the test [not line.endswith(':')] of the rule for sentence marks
    never changes the answer: on the stripped text, the rule with the
    test fires exactly when the pattern alone matches. *)
Theorem colon_guard_redundant (U : UnicodeDB) (line : str) :
  re_search re_end_punctuation (strip U line)
  && negb (endswith (strip U line) (ch ":"))
  = re_search re_end_punctuation (strip U line).
Proof.
  destruct (re_search re_end_punctuation (strip U line)) eqn:E;
    [|reflexivity].
  apply re_end_punctuation_last in E as (before & c & Hs & Hc).
  rewrite Hs, endswith_last, (sentence_mark_not_colon c Hc). reflexivity.
Qed.


(** ** [is_heading]: the three stages *)

Section Cascade.
Context (U : UnicodeDB).

(** [is_heading] runs the rejection rules, then the pattern rules, then
    compares the score with 0.5. *)
Lemma is_heading_cascade line font_size is_bold y_pos x_pos width page_width :
  is_heading U line font_size is_bold y_pos x_pos width page_width
  = if rejected U (strip U line) then Ok false
    else if pattern_accepted U (strip U line) then Ok true
    else bindE (style_score U (strip U line) font_size is_bold
                  y_pos x_pos width page_width)
           (fun score => Ok (PrimFloat.leb 0.5 score)).
Proof.
  unfold is_heading, rejected, pattern_accepted, style_score. cbv zeta.
  repeat match goal with
         | |- (if ?c then ?v else _) = _ =>
             destruct c eqn:?; [reflexivity|]
         end.
  simpl.
  destruct x_pos as [x|]; [|reflexivity].
  destruct width as [w|]; [|reflexivity].
  destruct page_width as [pw|]; [|reflexivity].
  destruct (fdiv (x + w / 2) pw); reflexivity.
Qed.

End Cascade.

Lemma pattern_refused_not_upper (U : UnicodeDB) (line : str) :
  pattern_accepted U line = false ->
  isupper U line && (2 <? List.length line) = false.
Proof.
  unfold pattern_accepted. intros H.
  now apply orb_false_iff in H as [_ H].
Qed.

(** X6: called with the text alone, every optional argument at its
    default, [is_heading] accepts a line only by one of the four pattern
    rules: the score of an unstyled line never reaches 0.5. *)
Theorem unstyled_line_needs_pattern (U : UnicodeDB) (line : str) :
  is_heading U line None false None None None None
  = Ok (negb (rejected U (strip U line))
        && pattern_accepted U (strip U line)).
Proof.
  rewrite is_heading_cascade.
  destruct (rejected U (strip U line)); [reflexivity|].
  destruct (pattern_accepted U (strip U line)) eqn:Hp; [reflexivity|].
  unfold style_score. cbv zeta. cbn [present_and_geb present_and_ltb bindE].
  rewrite (pattern_refused_not_upper U _ Hp).
  destruct (List.length (split U (strip U line)) <? 10);
    destruct (is_empty (split U (strip U line)));
    try destruct (PrimFloat.ltb 0.7 _);
    reflexivity.
Qed.

(** The centering test adds 0.1 to the score or leaves it, when it does
    not raise. *)
Lemma centering_boost (x_pos width page_width : option float) (score : float) :
  page_width_usable page_width ->
  exists boost : bool,
    match x_pos, width, page_width with
    | Some x, Some w, Some pw =>
        bindE (fdiv (x + w / 2) pw)
          (fun center =>
             Ok (if PrimFloat.ltb 0.45 center && PrimFloat.ltb center 0.55
                 then (score + 0.1)%float else score))
    | _, _, _ => Ok score
    end = Ok (if boost then (score + 0.1)%float else score).
Proof.
  intros Hpw.
  destruct x_pos as [x|]; [|now exists false].
  destruct width as [w|]; [|now exists false].
  destruct page_width as [pw|]; [|now exists false].
  simpl in Hpw. unfold fdiv. rewrite Hpw. cbn [bindE]. eauto.
Qed.

(** X7: a line that no rejection rule rejects, in bold and with a font
    size of 12 or more, is a heading, whatever its text, its position and
    its width are, as long as the page width is absent or not zero. *)
Theorem bold_large_line_accepted (U : UnicodeDB) (line : str)
    (font_size : option float) (y_pos x_pos width page_width : option float) :
  rejected U (strip U line) = false ->
  present_and_geb font_size 12 = true ->
  page_width_usable page_width ->
  is_heading U line font_size true y_pos x_pos width page_width = Ok true.
Proof.
  intros Hrej Hfont Hpw.
  rewrite is_heading_cascade, Hrej.
  destruct (pattern_accepted U (strip U line)) eqn:Hp; [reflexivity|].
  unfold style_score. cbv zeta.
  rewrite Hfont, (pattern_refused_not_upper U _ Hp).
  match goal with
  | |- bindE (bindE ?m _) _ = _ =>
      match m with
      | context [Ok ?sc] =>
          destruct (centering_boost x_pos width page_width sc Hpw)
            as [boost Hb]
      end
  end.
  rewrite Hb. cbn [bindE].
  destruct (List.length (split U (strip U line)) <? 10);
    destruct (present_and_ltb y_pos 0.3);
    destruct boost;
    destruct (is_empty (split U (strip U line)));
    try destruct (PrimFloat.ltb 0.7 _);
    reflexivity.
Qed.


(** ** [is_heading]: the score *)

Section Score.
Context (U : UnicodeDB).

(** The score in floats reaches 0.5 exactly when the weights of the tests
    that hold sum to 5 tenths or more. *)
Lemma style_score_threshold line font_size is_bold y_pos x_pos width
    page_width score :
  style_score U line font_size is_bold y_pos x_pos width page_width
  = Ok score ->
  PrimFloat.leb 0.5 score
  = (5 <=? score_tenths U line font_size is_bold y_pos x_pos width page_width).
Proof.
  unfold style_score, score_tenths, mostly_capitalized, centered.
  cbv zeta. intros H.
  destruct (present_and_geb font_size 12);
    destruct is_bold;
    destruct (List.length (split U line) <? 10);
    destruct (present_and_ltb y_pos 0.3);
    destruct (isupper U line && (2 <? List.length line));
    destruct (is_empty (split U line));
    try destruct (PrimFloat.ltb 0.7 _);
    (destruct x_pos as [x|]; [|inversion H; subst; reflexivity]);
    (destruct width as [w|]; [|inversion H; subst; reflexivity]);
    (destruct page_width as [pw|]; [|inversion H; subst; reflexivity]);
    unfold fdiv in H; destruct (PrimFloat.eqb pw 0); try discriminate H;
    cbn [bindE] in H;
    destruct (PrimFloat.ltb 0.45 _ && PrimFloat.ltb _ 0.55);
    inversion H; subst; reflexivity.
Qed.

Lemma style_score_returns line font_size is_bold y_pos x_pos width page_width :
  page_width_usable page_width ->
  exists score,
    style_score U line font_size is_bold y_pos x_pos width page_width
    = Ok score.
Proof.
  intros Hpw. unfold style_score. cbv zeta.
  match goal with
  | |- exists _, bindE ?m _ = _ =>
      match m with
      | context [Ok ?sc] =>
          destruct (centering_boost x_pos width page_width sc Hpw)
            as [boost Hb]
      end
  end.
  rewrite Hb. cbn [bindE]. eauto.
Qed.

Lemma is_heading_raise_kind line font_size is_bold y_pos x_pos width
    page_width e :
  is_heading U line font_size is_bold y_pos x_pos width page_width = Raise e ->
  e = ZeroDivisionError.
Proof.
  rewrite is_heading_cascade.
  destruct (rejected U (strip U line)); [discriminate|].
  destruct (pattern_accepted U (strip U line)); [discriminate|].
  unfold style_score. cbv zeta.
  destruct x_pos as [x|]; [|discriminate].
  destruct width as [w|]; [|discriminate].
  destruct page_width as [pw|]; [|discriminate].
  unfold fdiv. destruct (PrimFloat.eqb pw 0); cbn [bindE]; intros H;
    [now inversion H | discriminate].
Qed.

End Score.

Lemma bold_large_line_accepted_witness :
  rejected ascii_db (strip ascii_db (py "Scope of the work")) = false
  /\ present_and_geb (Some 12%float) 12 = true
  /\ page_width_usable (Some 612%float)
  /\ is_heading ascii_db (py "Scope of the work") (Some 12%float) true
       (Some 0.9%float) (Some 72%float) (Some 80%float) (Some 612%float)
     = Ok true.
Proof.
  assert (Hr : rejected ascii_db (strip ascii_db (py "Scope of the work"))
               = false) by (vm_compute; reflexivity).
  assert (Hf : present_and_geb (Some 12%float) 12 = true) by reflexivity.
  assert (Hw : page_width_usable (Some 612%float)) by reflexivity.
  split; [exact Hr|]. split; [exact Hf|]. split; [exact Hw|].
  exact (bold_large_line_accepted ascii_db (py "Scope of the work")
           (Some 12%float) (Some 0.9%float) (Some 72%float) (Some 80%float)
           (Some 612%float) Hr Hf Hw).
Defined.

(** X8: when the page width is absent or not zero, [is_heading] returns,
    and it returns true exactly when no rejection rule fires and either a
    pattern rule fires or the weights of the style tests that hold (4, 3,
    2, 1, 2, 1 and 1 tenths) sum to 5 tenths or more: the rounding of the
    float sum never changes the comparison with 0.5. *)
Theorem is_heading_decision (U : UnicodeDB) (line : str)
    (font_size : option float) (is_bold : bool)
    (y_pos x_pos width page_width : option float) :
  page_width_usable page_width ->
  is_heading U line font_size is_bold y_pos x_pos width page_width
  = Ok (negb (rejected U (strip U line))
        && (pattern_accepted U (strip U line)
            || (5 <=? score_tenths U (strip U line) font_size is_bold
                        y_pos x_pos width page_width))).
Proof.
  intros Hpw. rewrite is_heading_cascade.
  destruct (rejected U (strip U line)); [reflexivity|].
  destruct (pattern_accepted U (strip U line)); [reflexivity|].
  destruct (style_score_returns U (strip U line) font_size is_bold
              y_pos x_pos width page_width Hpw) as [score Hs].
  rewrite Hs. cbn [bindE negb andb orb].
  now rewrite (style_score_threshold U _ _ _ _ _ _ _ _ Hs).
Qed.

Lemma is_heading_decision_witness :
  page_width_usable (Some 612%float)
  /\ is_heading ascii_db (py "Scope of work") None false (Some 0.1%float)
       (Some 256%float) (Some 100%float) (Some 612%float)
     = Ok (negb (rejected ascii_db (strip ascii_db (py "Scope of work")))
           && (pattern_accepted ascii_db (strip ascii_db (py "Scope of work"))
               || (5 <=? score_tenths ascii_db
                           (strip ascii_db (py "Scope of work")) None false
                           (Some 0.1%float) (Some 256%float)
                           (Some 100%float) (Some 612%float)))).
Proof.
  assert (H : page_width_usable (Some 612%float)) by reflexivity.
  split; [exact H|].
  exact (is_heading_decision ascii_db (py "Scope of work") None false
           (Some 0.1%float) (Some 256%float) (Some 100%float)
           (Some 612%float) H).
Defined.

Lemma count_if_length {A} (p : A -> bool) l : count_if p l <= List.length l.
Proof. unfold count_if. apply filter_length_le. Qed.

(** X9: for a text of at most 15 words, the limit of the rejection
    rules, the test of the capitalization ratio in floats is the exact
    test: more than 7 words in 10 start with an uppercase character. *)
Theorem capitalization_ratio_exact (U : UnicodeDB) (line : str) :
  List.length (split U line) <= 15 ->
  mostly_capitalized U line
  = (7 * List.length (split U line)
     <? 10 * count_if (starts_upper U) (split U line)).
Proof.
  intros Hlen. unfold mostly_capitalized. cbv zeta.
  pose proof (count_if_length (starts_upper U) (split U line)) as Hc.
  destruct (split U line) as [|w words] eqn:E; [reflexivity|].
  cbn [is_empty negb andb].
  set (n := List.length (w :: words)) in *.
  set (c := count_if (starts_upper U) (w :: words)) in *.
  assert (Hn : In n (seq 1 15)).
  { apply in_seq. subst n. simpl in *. lia. }
  assert (Hcn : In c (seq 0 (S n))) by (apply in_seq; lia).
  assert (Hall :
    forallb (fun n => forallb (fun c =>
       Bool.eqb (PrimFloat.ltb 0.7 (float_of_nat c / float_of_nat n)%float)
                (7 * n <? 10 * c)) (seq 0 (S n))) (seq 1 15) = true)
    by (vm_compute; reflexivity).
  rewrite forallb_forall in Hall. specialize (Hall n Hn).
  rewrite forallb_forall in Hall. specialize (Hall c Hcn).
  now apply Bool.eqb_prop in Hall.
Qed.

Lemma capitalization_ratio_exact_witness :
  List.length (split ascii_db (py "Summary of the Main Results")) <= 15
  /\ mostly_capitalized ascii_db (py "Summary of the Main Results")
     = (7 * List.length (split ascii_db (py "Summary of the Main Results"))
        <? 10 * count_if (starts_upper ascii_db)
                  (split ascii_db (py "Summary of the Main Results"))).
Proof.
  assert (H : List.length (split ascii_db (py "Summary of the Main Results"))
              <= 15) by (vm_compute; lia).
  split; [exact H|].
  exact (capitalization_ratio_exact ascii_db
           (py "Summary of the Main Results") H).
Defined.

(** X10: [is_heading] raises nothing but [ZeroDivisionError], and raises
    it exactly when the text is left to the score, the position, the
    width and the page width are all given, and the page width is zero. *)
Theorem is_heading_raises (U : UnicodeDB) (line : str)
    (font_size : option float) (is_bold : bool)
    (y_pos x_pos width page_width : option float) (e : exn) :
  is_heading U line font_size is_bold y_pos x_pos width page_width = Raise e
  <-> e = ZeroDivisionError
      /\ rejected U (strip U line) = false
      /\ pattern_accepted U (strip U line) = false
      /\ exists x w pw,
           x_pos = Some x /\ width = Some w /\ page_width = Some pw
           /\ PrimFloat.eqb pw 0 = true.
Proof.
  rewrite is_heading_cascade. split.
  - intros H.
    destruct (rejected U (strip U line)); [discriminate|].
    destruct (pattern_accepted U (strip U line)); [discriminate|].
    destruct page_width as [pw|].
    + destruct (PrimFloat.eqb pw 0) eqn:Epw.
      * unfold style_score in H. cbv zeta in H.
        destruct x_pos as [x|]; [|discriminate].
        destruct width as [w|]; [|discriminate].
        unfold fdiv in H. rewrite Epw in H. cbn [bindE] in H.
        inversion H; subst. repeat split; eauto 10.
      * destruct (style_score_returns U (strip U line) font_size is_bold
                    y_pos x_pos width (Some pw) Epw) as [s Hs].
        rewrite Hs in H. discriminate.
    + destruct (style_score_returns U (strip U line) font_size is_bold
                  y_pos x_pos width None I) as [s Hs].
      rewrite Hs in H. discriminate.
  - intros (-> & -> & -> & x & w & pw & -> & -> & -> & Epw).
    unfold style_score, fdiv. cbv zeta. rewrite Epw. reflexivity.
Qed.

Lemma is_heading_raises_witness :
  is_heading ascii_db (py "Scope of work") (Some 14%float) true
    (Some 0.1%float) (Some 72%float) (Some 100%float) (Some 0%float)
  = Raise ZeroDivisionError.
Proof.
  apply (proj2 (is_heading_raises ascii_db (py "Scope of work")
                  (Some 14%float) true (Some 0.1%float) (Some 72%float)
                  (Some 100%float) (Some 0%float) ZeroDivisionError)).
  split; [reflexivity|]. split; [vm_compute; reflexivity|].
  split; [vm_compute; reflexivity|].
  exists 72%float, 100%float, 0%float. repeat split.
Defined.


(** ** [is_heading]: the linking verbs *)

Section Verbs.
Context (U : UnicodeDB).

Lemma ascii_tolower_ascii c : is_ascii c -> is_ascii (ascii_tolower c).
Proof.
  unfold is_ascii, ascii_tolower, ascii_isupper. intros H.
  destruct (N.leb_spec 65 c); destruct (N.leb_spec c 90); simpl; lia.
Qed.

Lemma ascii_tolower_space c :
  ascii_isspace (ascii_tolower c) = ascii_isspace c.
Proof.
  unfold ascii_tolower, ascii_isupper, ascii_isspace.
  destruct (N.leb_spec 65 c); destruct (N.leb_spec c 90); simpl;
    try reflexivity.
  repeat match goal with
         | |- context [N.leb ?a ?b] => destruct (N.leb_spec a b)
         end; simpl; try reflexivity; lia.
Qed.

Lemma uspace_tolower c :
  is_ascii c -> uspace U (ascii_tolower c) = uspace U c.
Proof.
  intros H. rewrite !uspace_ascii by auto using ascii_tolower_ascii.
  apply ascii_tolower_space.
Qed.

(** Lowering an ASCII text lowers its words. *)
Lemma split_from_tolower s : forall word,
  Forall is_ascii s ->
  split_from U (map ascii_tolower s) (map ascii_tolower word)
  = map (map ascii_tolower) (split_from U s word).
Proof.
  induction s as [|c s IH]; intros word H; cbn [map split_from].
  - destruct word; reflexivity.
  - inversion H; subst. rewrite uspace_tolower by assumption.
    destruct (uspace U c).
    + destruct word; cbn [map is_empty].
      * apply (IH []); assumption.
      * f_equal. apply (IH []); assumption.
    + rewrite <- IH by assumption. now rewrite map_app.
Qed.

Lemma split_tolower s :
  Forall is_ascii s ->
  split U (map ascii_tolower s) = map (map ascii_tolower) (split U s).
Proof. intros H. exact (split_from_tolower s [] H). Qed.

Lemma str_eqb_refl s : str_eqb s s = true.
Proof. unfold str_eqb. now destruct (list_eq_dec N.eq_dec s s). Qed.

End Verbs.

(** X11: a line of ASCII text one of whose words is a linking verb (is,
    are, was, has, have, were, will), in any mix of upper and lower case,
    is not a heading, whatever the style arguments are. *)
Theorem linking_verb_rejected (U : UnicodeDB) (line word : str)
    (font_size : option float) (is_bold : bool)
    (y_pos x_pos width page_width : option float) :
  Forall is_ascii line ->
  In word (split U (strip U line)) ->
  In (map ascii_tolower word) linking_verbs ->
  is_heading U line font_size is_bold y_pos x_pos width page_width = Ok false.
Proof.
  intros Hascii Hword Hverb. apply is_heading_rejected.
  pose proof (strip_keeps_ascii U line Hascii) as Hs.
  assert (Hfound :
    existsb (fun verb =>
               existsb (str_eqb verb) (split U (str_lower U (strip U line))))
            linking_verbs = true).
  { apply existsb_exists. exists (map ascii_tolower word).
    split; [assumption|].
    rewrite (str_lower_ascii U _ Hs).
    rewrite (split_tolower U (strip U line) Hs).
    apply existsb_exists. exists (map ascii_tolower word).
    split; [now apply in_map | apply str_eqb_refl]. }
  unfold rejected. rewrite Hfound. now rewrite !orb_true_r.
Qed.

Lemma linking_verb_rejected_witness :
  Forall is_ascii (py "What IS New")
  /\ In (py "IS") (split ascii_db (strip ascii_db (py "What IS New")))
  /\ In (map ascii_tolower (py "IS")) linking_verbs
  /\ is_heading ascii_db (py "What IS New")
       (Some 20%float) true (Some 0.1%float) None None None = Ok false.
Proof.
  assert (Ha : Forall is_ascii (py "What IS New"))
    by (apply py_is_ascii_test; reflexivity).
  assert (Hw : In (py "IS") (split ascii_db (strip ascii_db (py "What IS New"))))
    by (vm_compute; tauto).
  assert (Hv : In (map ascii_tolower (py "IS")) linking_verbs)
    by (vm_compute; tauto).
  split; [exact Ha|]. split; [exact Hw|]. split; [exact Hv|].
  exact (linking_verb_rejected ascii_db (py "What IS New") (py "IS")
           (Some 20%float) true (Some 0.1%float) None None None Ha Hw Hv).
Defined.


(** ** [extract_headings_from_pdf] *)

Lemma gather_exact {A B} (f : A -> Except (list B)) (g : A -> list B) l :
  (forall a x, In a l -> f a = Ok x -> x = g a) ->
  forall out, gather f l = Ok out -> out = flat_map g l.
Proof.
  induction l as [|a l IH]; intros Hf out H; simpl in *.
  - now inversion H.
  - destruct (f a) as [x|e] eqn:Ea; simpl in H; [|discriminate].
    destruct (gather f l) as [y|e]; simpl in H; [|discriminate].
    inversion H; subst.
    rewrite (Hf a x) by auto.
    rewrite (IH (fun a' x' Hin => Hf a' x' (or_intror Hin)) y eq_refl).
    reflexivity.
Qed.

Lemma gather_all_return {A B} (f : A -> Except (list B)) l out :
  gather f l = Ok out -> forall a, In a l -> exists x, f a = Ok x.
Proof.
  revert out. induction l as [|a l IH]; intros out H b Hb; simpl in *.
  - contradiction.
  - destruct (f a) as [x|e] eqn:Ea; simpl in H; [|discriminate].
    destruct (gather f l) as [y|e] eqn:El; simpl in H; [|discriminate].
    destruct Hb as [<-|Hb]; [eauto|]. eapply IH; eauto.
Qed.

Lemma gather_raises {A B} (f : A -> Except (list B)) (P : exn -> Prop) l e :
  (forall a e', In a l -> f a = Raise e' -> P e') ->
  gather f l = Raise e -> P e.
Proof.
  induction l as [|a l IH]; intros Hf H; simpl in *; [discriminate|].
  destruct (f a) as [x|e'] eqn:Ea; simpl in H.
  - destruct (gather f l) as [y|e''] eqn:El; simpl in H; [discriminate|].
    inversion H; subst. apply IH; [|reflexivity].
    intros; eapply Hf; eauto.
  - inversion H; subst. eapply Hf; eauto.
Qed.

Lemma flat_map_flat_map {A B C} (f : A -> list B) (g : B -> list C) l :
  flat_map g (flat_map f l) = flat_map (fun a => flat_map g (f a)) l.
Proof.
  induction l as [|a l IH]; simpl; [reflexivity|].
  now rewrite flat_map_app, IH.
Qed.

Lemma flat_map_filter_map {A B} (p : A -> bool) (h : A -> B) l :
  flat_map (fun a => if p a then [h a] else []) l = map h (filter p l).
Proof.
  induction l as [|a l IH]; simpl; [reflexivity|].
  destruct (p a); simpl; now rewrite IH.
Qed.

Section Lines.
Context (U : UnicodeDB) (W : World).

Lemma line_candidates_exact page_num page line x :
  line_candidates U page_num page line = Ok x ->
  x = if accepted_b U page line then [line_heading U page_num line] else [].
Proof.
  unfold line_candidates, accepted_b.
  destruct (line_accepted U page line) as [[|]|e]; simpl; intros H;
    now inversion H.
Qed.

Lemma page_candidates_exact numbered out :
  page_candidates U numbered = Ok out ->
  out = map (line_heading U (fst numbered))
          (filter (accepted_b U (snd numbered)) (page_lines (snd numbered))).
Proof.
  intros H. unfold page_candidates in H.
  apply gather_exact
    with (g := fun block =>
                 flat_map (fun line =>
                             if accepted_b U (snd numbered) line
                             then [line_heading U (fst numbered) line]
                             else [])
                          (block_line_list block)) in H.
  - rewrite H. unfold page_lines.
    rewrite <- flat_map_filter_map. now rewrite flat_map_flat_map.
  - intros block x _ Hx. unfold block_candidates in Hx.
    revert Hx. apply gather_exact.
    intros line y _. apply line_candidates_exact.
Qed.

(** The candidates of a document that is read without error are its
    accepted lines. *)
Lemma document_candidates_exact doc out :
  document_candidates U doc = Ok out -> out = accepted_lines U doc.
Proof.
  unfold document_candidates, accepted_lines.
  apply gather_exact. intros numbered x _. apply page_candidates_exact.
Qed.

End Lines.

(** X12: when [extract_headings_from_pdf] returns, it returns exactly the
    lines of the document for which the filter answers true, each once,
    in reading order, with its stripped text and the number of its page,
    counted from 1. *)
Theorem headings_are_accepted_lines (U : UnicodeDB) (W : World)
    (pdf_path : str) (doc : Document) (hs : list Heading) :
  fitz_open W pdf_path = Ok doc ->
  extract_headings_from_pdf U W pdf_path = Ok hs ->
  hs = accepted_lines U doc.
Proof.
  intros Hopen H.
  rewrite extract_headings_candidates, Hopen in H. simpl in H.
  now apply document_candidates_exact.
Qed.

Lemma headings_are_accepted_lines_witness :
  report_headings = accepted_lines ascii_db report_doc.
Proof.
  apply (headings_are_accepted_lines ascii_db demo_world
           (py "input/annual_report.pdf") report_doc report_headings).
  - vm_compute. reflexivity.
  - vm_compute. reflexivity.
Defined.


Section StripTwice.
Context (U : UnicodeDB).

Lemma lstrip_split s : exists ws, blank U ws /\ s = ws ++ lstrip U s.
Proof.
  induction s as [|c s (ws & Hws & IH)]; simpl.
  - exists []. split; [intros c []|reflexivity].
  - destruct (uspace U c) eqn:E.
    + exists (c :: ws). split.
      * intros x [<-|Hx]; auto.
      * simpl. now rewrite <- IH.
    + exists []. split; [intros x []|reflexivity].
Qed.

Lemma rstrip_split s : exists ws, blank U ws /\ s = rstrip U s ++ ws.
Proof.
  destruct (lstrip_split (rev s)) as (ws & Hws & H).
  exists (rev ws). split; [now apply blank_rev|].
  unfold rstrip. rewrite <- rev_app_distr, <- H. now rewrite rev_involutive.
Qed.

(** Stripping a stripped text changes nothing. *)
Lemma strip_idempotent s : strip U (strip U s) = strip U s.
Proof.
  destruct (lstrip_split s) as (before & Hb & H1).
  destruct (rstrip_split (lstrip U s)) as (after & Ha & H2).
  assert (Hs : s = before ++ strip U s ++ after).
  { unfold strip. now rewrite <- H2. }
  pose proof (strip_padding U before (strip U s) after Hb Ha) as Hp.
  rewrite <- Hs in Hp. now symmetry.
Qed.

End StripTwice.

Section Geometry.
Context (U : UnicodeDB) (W : World).

Lemma line_accepted_raises page line e :
  line_accepted U page line = Raise e -> e = ZeroDivisionError.
Proof.
  unfold line_accepted. cbv zeta.
  destruct (is_empty _); [discriminate|].
  destruct (line_spans line) as [|first others]; cbn [bindE].
  - intros H. now apply is_heading_raise_kind in H.
  - unfold fdiv. destruct (PrimFloat.eqb (rect_height page) 0);
      cbn [bindE]; intros H.
    + now inversion H.
    + now apply is_heading_raise_kind in H.
Qed.

Lemma line_accepted_zero_height page line :
  PrimFloat.eqb (rect_height page) 0 = true ->
  strip U (List.concat (map span_text (line_spans line))) <> [] ->
  line_accepted U page line = Raise ZeroDivisionError.
Proof.
  intros Hh Htext. unfold line_accepted. cbv zeta.
  destruct (strip U (List.concat (map span_text (line_spans line))))
    as [|c t] eqn:E; [congruence|].
  cbn [is_empty].
  destruct (line_spans line) as [|first others]; [discriminate E|].
  unfold fdiv. rewrite Hh. reflexivity.
Qed.

Lemma in_enumerate {A} (x : A) l : forall start,
  In x l -> exists n, In (n, x) (enumerate start l).
Proof.
  unfold enumerate. induction l as [|a l IH]; intros start H; [contradiction|].
  destruct H as [->|H]; simpl.
  - exists start. now left.
  - destruct (IH (S start) H) as [n Hn]. exists n. now right.
Qed.

Lemma enumerate_range {A} (x : A) l n start :
  In (n, x) (enumerate start l) ->
  In x l /\ start <= n < start + List.length l.
Proof.
  unfold enumerate. intros H. split.
  - eapply in_combine_r; eauto.
  - apply in_combine_l in H. now apply in_seq in H.
Qed.

Lemma document_candidates_raises doc e :
  document_candidates U doc = Raise e -> e = ZeroDivisionError.
Proof.
  unfold document_candidates.
  apply (gather_raises _ (fun e => e = ZeroDivisionError)).
  intros numbered e1 _.
  unfold page_candidates.
  apply (gather_raises _ (fun e => e = ZeroDivisionError)).
  intros block e2 _.
  unfold block_candidates.
  apply (gather_raises _ (fun e => e = ZeroDivisionError)).
  intros line e3 _.
  unfold line_candidates.
  destruct (line_accepted U (snd numbered) line) as [b|e4] eqn:E;
    simpl; intros H; [discriminate|].
  inversion H; subst. now apply line_accepted_raises in E.
Qed.

Lemma document_candidates_all_return doc out page line :
  document_candidates U doc = Ok out ->
  In page (doc_pages doc) -> In line (page_lines page) ->
  exists b, line_accepted U page line = Ok b.
Proof.
  intros H Hpage Hline.
  destruct (in_enumerate page (doc_pages doc) 1 Hpage) as [n Hn].
  unfold document_candidates in H.
  destruct (gather_all_return _ _ _ H _ Hn) as [x Hx].
  unfold page_candidates in Hx. simpl in Hx.
  unfold page_lines in Hline.
  apply in_flat_map in Hline as (block & Hblock & Hline).
  destruct (gather_all_return _ _ _ Hx _ Hblock) as [y Hy].
  unfold block_candidates in Hy.
  destruct (gather_all_return _ _ _ Hy _ Hline) as [z Hz].
  unfold line_candidates in Hz.
  destruct (line_accepted U page line) as [b|e]; [eauto | discriminate].
Qed.

Lemma accepted_lines_origin doc h :
  In h (accepted_lines U doc) ->
  exists n page line,
    In (n, page) (enumerate 1 (doc_pages doc))
    /\ In line (page_lines page)
    /\ line_accepted U page line = Ok true
    /\ h = line_heading U n line.
Proof.
  unfold accepted_lines. intros H.
  apply in_flat_map in H as ([n page] & Hn & H). simpl in H.
  apply in_map_iff in H as (line & <- & H).
  apply filter_In in H as [Hline Hacc].
  exists n, page, line. repeat split; try assumption.
  unfold accepted_b in Hacc.
  destruct (line_accepted U page line) as [[|]|e]; congruence.
Qed.

End Geometry.

(** X13: every heading that [extract_headings_from_pdf] returns has a
    text that is not empty and has no white space at its ends, and a page
    number between 1 and the number of pages of the document. *)
Theorem headings_well_formed (U : UnicodeDB) (W : World) (pdf_path : str)
    (doc : Document) (hs : list Heading) :
  fitz_open W pdf_path = Ok doc ->
  extract_headings_from_pdf U W pdf_path = Ok hs ->
  Forall (fun h => h_text h <> []
                   /\ strip U (h_text h) = h_text h
                   /\ 1 <= h_page h <= List.length (doc_pages doc)) hs.
Proof.
  intros Hopen H.
  rewrite extract_headings_candidates, Hopen in H. simpl in H.
  apply document_candidates_exact in H. subst hs.
  apply Forall_forall. intros h Hh.
  apply accepted_lines_origin in Hh as (n & page & line & Hn & _ & Hacc & ->).
  apply enumerate_range in Hn as [_ Hn].
  unfold line_heading. simpl. repeat split; try lia.
  - unfold line_accepted in Hacc. cbv zeta in Hacc.
    destruct (strip U (List.concat (map span_text (line_spans line))));
      [discriminate Hacc | discriminate].
  - apply strip_idempotent.
Qed.

Lemma headings_well_formed_witness :
  Forall (fun h => h_text h <> []
                   /\ strip ascii_db (h_text h) = h_text h
                   /\ 1 <= h_page h <= List.length (doc_pages report_doc))
         report_headings.
Proof.
  apply (headings_well_formed ascii_db demo_world
           (py "input/annual_report.pdf") report_doc report_headings).
  - vm_compute. reflexivity.
  - vm_compute. reflexivity.
Defined.

(** X14: when a page of height zero has a line whose stripped text is
    not empty, [extract_headings_from_pdf] raises [ZeroDivisionError]:
    the vertical position of the line is divided by the page height. *)
Theorem zero_height_page_raises (U : UnicodeDB) (W : World) (pdf_path : str)
    (doc : Document) (page : Page) (line : Line) :
  fitz_open W pdf_path = Ok doc ->
  In page (doc_pages doc) ->
  PrimFloat.eqb (rect_height page) 0 = true ->
  In line (page_lines page) ->
  strip U (List.concat (map span_text (line_spans line))) <> [] ->
  extract_headings_from_pdf U W pdf_path = Raise ZeroDivisionError.
Proof.
  intros Hopen Hpage Hh Hline Htext.
  rewrite extract_headings_candidates, Hopen. simpl.
  destruct (document_candidates U doc) as [out|e] eqn:E.
  - destruct (document_candidates_all_return U doc out page line E Hpage Hline)
      as [b Hb].
    rewrite (line_accepted_zero_height U page line Hh Htext) in Hb.
    discriminate Hb.
  - f_equal. now apply document_candidates_raises in E.
Qed.

Lemma zero_height_page_raises_witness :
  extract_headings_from_pdf ascii_db flat_world (py "flat.pdf")
  = Raise ZeroDivisionError.
Proof.
  apply (zero_height_page_raises ascii_db flat_world (py "flat.pdf")
           flat_doc flat_page (one_line "Title" 12 "Helvetica" 72 0)).
  - reflexivity.
  - now left.
  - reflexivity.
  - now left.
  - vm_compute. discriminate.
Defined.

(** ** [process_pdf] *)

Section Traces.
Context (U : UnicodeDB) (W : World).

Lemma process_pdf_trace_error pdf_path model_path e :
  extract_headings_from_pdf U W pdf_path = Raise e ->
  trace (process_pdf U W pdf_path model_path)
  = trace (extract_title_from_pdf U W pdf_path).
Proof.
  intros H. unfold process_pdf. rewrite H.
  destruct (extract_title_total U W pdf_path) as [log ->].
  simpl. now rewrite app_nil_r.
Qed.

Lemma process_pdf_trace_candidates pdf_path model_path hs :
  extract_headings_from_pdf U W pdf_path = Ok hs ->
  hs <> [] ->
  trace (process_pdf U W pdf_path model_path)
  = trace (extract_title_from_pdf U W pdf_path)
    ++ EvLoad model_path
       :: match joblib_load W model_path with
          | Ok _ => [EvPredict (map h_text hs)]
          | Raise _ => []
          end.
Proof.
  intros H Hne. unfold process_pdf. rewrite H.
  destruct (extract_title_total U W pdf_path) as [log ->].
  destruct hs as [|h hs]; [congruence|].
  cbn -[map].
  destruct (joblib_load W model_path) as [model|e]; cbn -[map];
    [|reflexivity].
  destruct (predict model (map h_text (h :: hs))); cbn -[map];
    now rewrite ?app_nil_r.
Qed.

End Traces.

(** X15: an error of the heading extraction (the document does not open,
    or a division by zero) is the result of [process_pdf], and the
    classifier is neither loaded nor asked; the title has been extracted
    before, so a document that does not open has its error printed by the
    title extraction and raised by the heading extraction. *)
Theorem extraction_error_propagates (U : UnicodeDB) (W : World)
    (pdf_path model_path : str) (e : exn) :
  extract_headings_from_pdf U W pdf_path = Raise e ->
  result (process_pdf U W pdf_path model_path) = Raise e
  /\ trace (process_pdf U W pdf_path model_path)
     = trace (extract_title_from_pdf U W pdf_path)
  /\ forall ev, In ev (trace (process_pdf U W pdf_path model_path)) ->
                classifier_event ev = false.
Proof.
  intros H.
  assert (Htrace : trace (process_pdf U W pdf_path model_path)
                   = trace (extract_title_from_pdf U W pdf_path))
    by now apply process_pdf_trace_error with e.
  split; [now rewrite process_pdf_result, H|].
  split; [exact Htrace|].
  intros ev Hev. rewrite Htrace in Hev.
  now apply extract_title_prints in Hev.
Qed.

Lemma extraction_error_propagates_witness :
  result (process_pdf ascii_db demo_world (py "input/none.pdf")
            (py "levels.joblib"))
  = Raise (LibraryError (py "cannot open file"))
  /\ trace (process_pdf ascii_db demo_world (py "input/none.pdf")
              (py "levels.joblib"))
     = trace (extract_title_from_pdf ascii_db demo_world (py "input/none.pdf"))
  /\ forall ev,
       In ev (trace (process_pdf ascii_db demo_world (py "input/none.pdf")
                       (py "levels.joblib"))) ->
       classifier_event ev = false.
Proof.
  apply (extraction_error_propagates ascii_db demo_world
           (py "input/none.pdf") (py "levels.joblib")).
  vm_compute. reflexivity.
Defined.

(** X16: when there are candidates, [process_pdf] loads the classifier
    once, from [model_path], after the title extraction; it asks the
    classifier once, for the texts of the candidates in their order, if
    the loading returned, and not at all if it raised. *)
Theorem classifier_called_once (U : UnicodeDB) (W : World)
    (pdf_path model_path : str) (hs : list Heading) :
  extract_headings_from_pdf U W pdf_path = Ok hs ->
  hs <> [] ->
  trace (process_pdf U W pdf_path model_path)
  = trace (extract_title_from_pdf U W pdf_path)
    ++ EvLoad model_path
       :: match joblib_load W model_path with
          | Ok _ => [EvPredict (map h_text hs)]
          | Raise _ => []
          end.
Proof.
  intros H Hne. now apply process_pdf_trace_candidates.
Qed.

Lemma classifier_called_once_witness :
  trace (process_pdf ascii_db demo_world (py "input/annual_report.pdf")
           (py "levels.joblib"))
  = trace (extract_title_from_pdf ascii_db demo_world
             (py "input/annual_report.pdf"))
    ++ EvLoad (py "levels.joblib")
       :: match joblib_load demo_world (py "levels.joblib") with
          | Ok _ => [EvPredict (map h_text report_headings)]
          | Raise _ => []
          end.
Proof.
  apply (classifier_called_once ascii_db demo_world
           (py "input/annual_report.pdf") (py "levels.joblib")
           report_headings).
  - vm_compute. reflexivity.
  - discriminate.
Defined.

Lemma entries_with_surplus (hs : list Heading) : forall levels,
  List.length hs <= List.length levels ->
  map entry_heading (map make_entry (combine hs levels)) = hs
  /\ map level (map make_entry (combine hs levels))
     = firstn (List.length hs) levels.
Proof.
  induction hs as [|[t p] hs IH]; intros [|l ls] H; simpl in *;
    try lia; try (split; reflexivity).
  destruct (IH ls) as [H1 H2]; [lia|].
  unfold entry_heading at 1. simpl. split; f_equal; assumption.
Qed.

(** X17: when the classifier returns more labels than there are
    candidates, [process_pdf] raises nothing: every candidate has its
    entry, with its text and page, the labels are the first ones, and the
    labels left over are ignored. *)
Theorem surplus_labels_ignored (U : UnicodeDB) (W : World)
    (pdf_path model_path : str) (hs : list Heading) (model : Model)
    (levels : list str) :
  extract_headings_from_pdf U W pdf_path = Ok hs ->
  joblib_load W model_path = Ok model ->
  predict model (map h_text hs) = Ok levels ->
  List.length hs <= List.length levels ->
  exists t o,
    result (process_pdf U W pdf_path model_path)
    = Ok {| title := t; outline := o |}
    /\ map entry_heading o = hs
    /\ map level o = firstn (List.length hs) levels.
Proof.
  intros Hhs Hload Hpredict Hlen.
  exists (title_spec U W pdf_path), (map make_entry (combine hs levels)).
  split.
  - rewrite process_pdf_result, Hhs, Hload, Hpredict.
    destruct hs; reflexivity.
  - now apply entries_with_surplus.
Qed.

Lemma surplus_labels_ignored_witness :
  exists t o,
    result (process_pdf ascii_db long_world (py "input/annual_report.pdf")
              (py "any.joblib"))
    = Ok {| title := t; outline := o |}
    /\ map entry_heading o = report_headings
    /\ map level o
       = firstn (List.length report_headings) [py "H1"; py "H1"; py "H9"].
Proof.
  apply (surplus_labels_ignored ascii_db long_world
           (py "input/annual_report.pdf") (py "any.joblib")
           report_headings long_model [py "H1"; py "H1"; py "H9"]).
  - vm_compute. reflexivity.
  - reflexivity.
  - vm_compute. reflexivity.
  - simpl. lia.
Defined.

(** ** [extract_title_from_pdf] *)

(** X18: the title that [extract_title_from_pdf] returns is the title
    made of the file name, or it is a text that is not empty, is shorter
    than 200 characters, has no white space at its ends and does not
    start with a digit, a period or a hyphen. *)
Theorem title_shape (U : UnicodeDB) (W : World) (pdf_path t : str) :
  result (extract_title_from_pdf U W pdf_path) = Ok t ->
  t = filename_title U W pdf_path
  \/ (t <> [] /\ List.length t < 200 /\ strip U t = t
      /\ exists c rest, t = c :: rest /\ title_prefix_char U c = false).
Proof.
  rewrite extract_title_result. intros H. inversion H as [Ht]. clear H.
  unfold title_spec.
  destruct (first_page_text W pdf_path) as [text|]; [|now left].
  destruct (find (qualifies U)
              (map (strip U) (firstn 5 (split_on newline text))))
    as [line|] eqn:E; [|now left].
  right. apply find_some in E as [Hin Hq].
  apply in_map_iff in Hin as (raw & <- & _).
  unfold qualifies in Hq.
  apply andb_prop in Hq as [Hq Hne]. apply andb_prop in Hq as [_ Hlen].
  apply Nat.ltb_lt in Hlen.
  destruct (drop_while_suffix (title_prefix_char U) (strip U raw))
    as [before Hsplit].
  unfold strip_title_prefix in *.
  repeat split.
  - destruct (drop_while _ _); [discriminate Hne | discriminate].
  - rewrite Hsplit, length_app in Hlen. lia.
  - apply strip_title_prefix_stripped.
  - destruct (drop_while (title_prefix_char U) (strip U raw)) as [|c rest] eqn:Ed;
      [discriminate Hne|].
    exists c, rest. split; [reflexivity|].
    now apply drop_while_head in Ed.
Qed.

Lemma title_shape_witness :
  py "Acme Corp Annual Report"
  = filename_title ascii_db demo_world (py "input/annual_report.pdf")
  \/ (py "Acme Corp Annual Report" <> []
      /\ List.length (py "Acme Corp Annual Report") < 200
      /\ strip ascii_db (py "Acme Corp Annual Report")
         = py "Acme Corp Annual Report"
      /\ exists c rest,
           py "Acme Corp Annual Report" = c :: rest
           /\ title_prefix_char ascii_db c = false).
Proof.
  apply (title_shape ascii_db demo_world (py "input/annual_report.pdf")).
  vm_compute. reflexivity.
Defined.


(** ** [process_all_pdfs] *)

Lemma select_app {A B} (f : A -> option B) l1 l2 :
  select f (l1 ++ l2) = select f l1 ++ select f l2.
Proof.
  induction l1 as [|a l1 IH]; simpl; [reflexivity|].
  destruct (f a); simpl; now rewrite IH.
Qed.

Lemma select_flat_map {A B C} (f : B -> option C) (g : A -> list B) l :
  select f (flat_map g l) = flat_map (fun a => select f (g a)) l.
Proof.
  induction l as [|a l IH]; simpl; [reflexivity|].
  now rewrite select_app, IH.
Qed.

Lemma select_none {A B} (f : A -> option B) l :
  (forall a, In a l -> f a = None) -> select f l = [].
Proof.
  induction l as [|a l IH]; intros H; simpl; [reflexivity|].
  rewrite (H a) by now left. apply IH. intros; apply H; now right.
Qed.

Lemma flat_map_option {A B} (f : A -> option B) l :
  flat_map (fun a => match f a with Some b => [b] | None => [] end) l
  = select f l.
Proof.
  induction l as [|a l IH]; simpl; [reflexivity|].
  destruct (f a); simpl; now rewrite IH.
Qed.

Section BatchFacts.
Context (U : UnicodeDB) (W : World) (FS : FileSystem).

Lemma process_one_written output_dir model_path pdf_file :
  select written (process_one U W FS output_dir model_path pdf_file)
  = match output_of U W output_dir model_path pdf_file with
    | Some out => [out]
    | None => []
    end.
Proof.
  unfold process_one, output_of, result.
  destruct (process_pdf U W pdf_file model_path) as [log outcome].
  cbn [select written app snd]. rewrite select_app.
  rewrite (select_none written (map BDocument log)).
  2: { intros ev Hev. apply in_map_iff in Hev as (x & <- & _). reflexivity. }
  destruct outcome as [doc|e]; [|reflexivity].
  cbn [app select written].
  destruct (write_json FS _ doc); reflexivity.
Qed.

Lemma title_never_loads pdf_path :
  select loaded (map BDocument (trace (extract_title_from_pdf U W pdf_path)))
  = [].
Proof.
  apply select_none. intros ev Hev.
  apply in_map_iff in Hev as (x & <- & Hx).
  apply extract_title_prints in Hx.
  destruct x; [reflexivity | discriminate | reflexivity].
Qed.

Lemma process_one_loaded output_dir model_path pdf_file :
  select loaded (process_one U W FS output_dir model_path pdf_file)
  = if has_candidates U W pdf_file then [model_path] else [].
Proof.
  unfold process_one, has_candidates.
  destruct (process_pdf U W pdf_file model_path) as [log outcome] eqn:E.
  assert (Hlog : log = trace (process_pdf U W pdf_file model_path))
    by now rewrite E.
  cbn [select loaded app]. rewrite !select_app.
  assert (Htail :
    select loaded
      match outcome with
      | Ok result =>
          BWrite (path_join output_dir (path_stem W pdf_file ++ py ".json"))
            result
          :: match write_json FS
                     (path_join output_dir (path_stem W pdf_file ++ py ".json"))
                     result with
             | Ok _ =>
                 [BPrint (py "Output written to: "
                          ++ path_join output_dir
                               (path_stem W pdf_file ++ py ".json"))]
             | Raise e =>
                 [BPrint (py "Error processing " ++ path_name FS pdf_file
                          ++ py ": " ++ exn_str e)]
             end
      | Raise e =>
          [BPrint (py "Error processing " ++ path_name FS pdf_file
                   ++ py ": " ++ exn_str e)]
      end = []).
  { destruct outcome as [doc|e]; [|reflexivity].
    cbn [select loaded]. destruct (write_json FS _ doc); reflexivity. }
  rewrite Htail, app_nil_r. clear Htail.
  destruct (extract_headings_from_pdf U W pdf_file) as [[|h hs]|e] eqn:Eh.
  - rewrite Hlog, (process_pdf_trace_no_headings U W _ _ Eh).
    rewrite map_app, select_app, title_never_loads. reflexivity.
  - rewrite Hlog, (process_pdf_trace_candidates U W _ _ (h :: hs) Eh)
      by discriminate.
    rewrite map_app, select_app, title_never_loads.
    destruct (joblib_load W model_path); reflexivity.
  - rewrite Hlog, (process_pdf_trace_error U W _ model_path e Eh).
    apply title_never_loads.
Qed.

End BatchFacts.

Section BatchRuns.
Context (U : UnicodeDB) (W : World) (FS : FileSystem).

(** Once the output directory is made and the files are listed, the
    batch is one message and the loop over the files. *)
Lemma process_all_pdfs_loop u files :
  mkdir FS (batch_output_dir FS) = Ok u ->
  glob_pdf FS (batch_input_dir FS) = Ok files ->
  exists msg,
    process_all_pdfs U W FS
    = ([BMkdir (batch_output_dir FS); BPrint msg]
       ++ flat_map (process_one U W FS (batch_output_dir FS)
                      (batch_model_path FS)) files,
       Ok tt).
Proof.
  unfold process_all_pdfs, batch_output_dir, batch_input_dir,
    batch_model_path.
  destruct (batch_paths FS) as [[input_dir output_dir] model_path].
  cbn [fst snd]. intros -> ->.
  destruct files as [|file files]; cbn [is_empty]; eexists; reflexivity.
Qed.

End BatchRuns.

(** X19: once the output directory is made and the files are listed,
    [process_all_pdfs] raises nothing, whatever happens to each file; the
    outputs it sets out to write are, in the order of the files, one for
    each file for which [process_pdf] returns, named after the stem of
    the file in the output directory and holding what [process_pdf]
    returned.  A file that fails, or whose output cannot be written, does
    not stop the files after it. *)
Theorem batch_outputs (U : UnicodeDB) (W : World) (FS : FileSystem)
    (u : unit) (files : list str) :
  mkdir FS (batch_output_dir FS) = Ok u ->
  glob_pdf FS (batch_input_dir FS) = Ok files ->
  snd (process_all_pdfs U W FS) = Ok tt
  /\ select written (fst (process_all_pdfs U W FS))
     = select (output_of U W (batch_output_dir FS) (batch_model_path FS))
         files.
Proof.
  intros Hmk Hglob.
  destruct (process_all_pdfs_loop U W FS u files Hmk Hglob) as [msg ->].
  split; [reflexivity|].
  cbn [fst]. rewrite select_app. cbn [select written app].
  rewrite select_flat_map.
  rewrite <- flat_map_option.
  apply flat_map_ext. intros file. apply process_one_written.
Qed.

Lemma batch_outputs_witness :
  snd (process_all_pdfs ascii_db batch_world demo_fs) = Ok tt
  /\ select written (fst (process_all_pdfs ascii_db batch_world demo_fs))
     = select (output_of ascii_db batch_world (batch_output_dir demo_fs)
                 (batch_model_path demo_fs))
         [py "app/input/annual_report.pdf"; py "app/input/notes.pdf";
          py "app/input/broken.pdf"].
Proof.
  apply (batch_outputs ascii_db batch_world demo_fs tt
           [py "app/input/annual_report.pdf"; py "app/input/notes.pdf";
            py "app/input/broken.pdf"]).
  - reflexivity.
  - reflexivity.
Defined.

(** X20: [process_all_pdfs] loads the classifier once for each file that
    has candidates, in the order of the files, and not at all for the
    other files; it loads it from the model path of the run, which is
    "/app/tfidf_heading_classifier.joblib" when "/app/input" exists and
    "tfidf_heading_classifier.joblib" otherwise. *)
Theorem batch_loads (U : UnicodeDB) (W : World) (FS : FileSystem)
    (u : unit) (files : list str) :
  mkdir FS (batch_output_dir FS) = Ok u ->
  glob_pdf FS (batch_input_dir FS) = Ok files ->
  select loaded (fst (process_all_pdfs U W FS))
  = map (fun _ => batch_model_path FS) (filter (has_candidates U W) files)
  /\ batch_model_path FS
     = if path_exists FS (py "/app/input")
       then py "/app/tfidf_heading_classifier.joblib"
       else py "tfidf_heading_classifier.joblib".
Proof.
  intros Hmk Hglob. split.
  - destruct (process_all_pdfs_loop U W FS u files Hmk Hglob) as [msg ->].
    cbn [fst]. rewrite select_app. cbn [select loaded app].
    rewrite select_flat_map.
    rewrite <- (flat_map_filter_map (has_candidates U W)
                  (fun _ => batch_model_path FS)).
    apply flat_map_ext. intros file. apply process_one_loaded.
  - unfold batch_model_path, batch_paths.
    destruct (path_exists FS (py "/app/input")); reflexivity.
Qed.

Lemma batch_loads_witness :
  select loaded (fst (process_all_pdfs ascii_db batch_world demo_fs))
  = map (fun _ => batch_model_path demo_fs)
      (filter (has_candidates ascii_db batch_world)
         [py "app/input/annual_report.pdf"; py "app/input/notes.pdf";
          py "app/input/broken.pdf"])
  /\ batch_model_path demo_fs
     = if path_exists demo_fs (py "/app/input")
       then py "/app/tfidf_heading_classifier.joblib"
       else py "tfidf_heading_classifier.joblib".
Proof.
  apply (batch_loads ascii_db batch_world demo_fs tt
           [py "app/input/annual_report.pdf"; py "app/input/notes.pdf";
            py "app/input/broken.pdf"]).
  - reflexivity.
  - reflexivity.
Defined.

(** X21: when the output directory cannot be made, or the files cannot
    be listed, [process_all_pdfs] raises that error, which nothing
    catches, before any file is processed: no document is opened and no
    output is written. *)
Theorem batch_setup_failure (U : UnicodeDB) (W : World) (FS : FileSystem)
    (e : exn) :
  mkdir FS (batch_output_dir FS) = Raise e
  \/ (exists u, mkdir FS (batch_output_dir FS) = Ok u
                /\ glob_pdf FS (batch_input_dir FS) = Raise e) ->
  snd (process_all_pdfs U W FS) = Raise e
  /\ forallb (fun ev => negb (touches_documents ev))
       (fst (process_all_pdfs U W FS)) = true.
Proof.
  unfold process_all_pdfs, batch_output_dir, batch_input_dir.
  destruct (batch_paths FS) as [[input_dir output_dir] model_path].
  cbn [fst snd]. intros [-> | (u & -> & ->)]; split; reflexivity.
Qed.

Lemma batch_setup_failure_witness :
  snd (process_all_pdfs ascii_db batch_world readonly_fs)
  = Raise (LibraryError (py "read-only file system"))
  /\ forallb (fun ev => negb (touches_documents ev))
       (fst (process_all_pdfs ascii_db batch_world readonly_fs)) = true.
Proof.
  apply (batch_setup_failure ascii_db batch_world readonly_fs).
  left. reflexivity.
Defined.
